(** * Ethereum transaction factory and legacy transaction

    A shallow embedding of [TransactionFactory] (typeOf, typeOfRaw, typeOfRPC,
    fromRpc, fromDatabaseTx, fromString) and of [LegacyTransaction]
    (constructor, toVmTransaction, signAndHash, toEthRawTransaction,
    computeIntrinsics), with the properties of classification, wire decoding,
    signing and serialization stated over it. *)

From Stdlib Require Import List NArith ZArith Bool Lia.
From Stdlib Require Import Strings.String Strings.Ascii Strings.Byte.
Import ListNotations.

Local Open Scope N_scope.

(** ** Buffers and JavaScript values *)

(** A Node [Buffer] is a sequence of bytes. *)
Definition Buffer := list byte.

Definition BUFFER_EMPTY : Buffer := [].

Definition BUFFER_32_ZERO : Buffer := repeat x00 32.

(** A JS [number] as the factory sees it: [undefined] (an index past the end
    of a buffer, an absent field), [NaN] (a failed [parseInt]) or an
    integer. *)
Inductive js_number :=
| undefined
| NaN
| Num (n : Z).

(** [buf[0]] *)
Definition first_byte (buf : Buffer) : js_number :=
  match buf with
  | [] => undefined
  | b :: _ => Num (Z.of_N (Byte.to_N b))
  end.

(** [arr.slice(1, arr.length)] *)
Definition slice1 {A : Type} (arr : list A) : list A := skipn 1 arr.

(** [arr[i] = x] for an index inside the array (the only use is on the
    10-slot raw array, at indices 7, 8 and 9). *)
Fixpoint array_set {A : Type} (i : nat) (x : A) (arr : list A) : list A :=
  match arr, i with
  | [], _ => []
  | _ :: rest, O => x :: rest
  | a :: rest, S i' => a :: array_set i' x rest
  end.

Definition byte_of_N (n : N) : byte :=
  match Byte.of_N (n mod 256) with
  | Some b => b
  | None => x00
  end.

(** Big-endian digits of [n], most significant first, with no leading zero
    byte; [fuel] bounds the number of digits produced. *)
Fixpoint be_digits (fuel : nat) (n : N) (acc : Buffer) : Buffer :=
  match fuel with
  | O => acc
  | S fuel' =>
      if n =? 0 then acc
      else be_digits fuel' (n / 256) (byte_of_N n :: acc)
  end.

Definition N_to_buffer (n : N) : Buffer := be_digits (N.to_nat (N.size n)) n [].

(** Big-endian value of a buffer. *)
Definition buffer_to_N (buf : Buffer) : N :=
  fold_left (fun acc b => acc * 256 + Byte.to_N b) buf 0.

Definition buffer_length (buf : Buffer) : N := N.of_nat (List.length buf).

(** ** Errors *)

Inductive Error :=
| AlreadySignedError
    (* "Internal Error: RuntimeTransaction `sign` called but transaction has
       already been signed" *)
| UnsupportedTransactionType (type : js_number)
    (* `Tx instantiation with type ${type} not supported` *)
| UnsupportedRpcType (type : option string)
    (* `Tx instantiation with supplied type ${type} not supported` *)
| TypeError
    (* a property read on [undefined] *)
| MalformedAddressError
| InvalidSignatureError
| MalformedHexError
| ExternalError (collaborator : string).
    (* raised inside a collaborator: the RLP decoder, ecsign, the access-list
       constructor *)

Inductive result (A : Type) :=
| Ok (a : A)
| Err (e : Error).
Arguments Ok {A} a.
Arguments Err {A} e.

Definition bind {A B : Type} (m : result A) (k : A -> result B) : result B :=
  match m with
  | Ok a => k a
  | Err e => Err e
  end.

Notation "x <- m ;; k" := (bind m (fun x => k))
  (at level 61, m at next level, right associativity).

(** A call into a collaborator: [None] is the collaborator raising. *)
Definition external {A : Type} (collaborator : string) (r : option A) : result A :=
  match r with
  | Some a => Ok a
  | None => Err (ExternalError collaborator)
  end.

(** ** Canonical value types *)

(** Modelled from the spec: [Quantity] of @ganache/utils is not among the
    sources. A quantity is a canonical non-negative integer whose byte
    representation is minimal big-endian: no leading zero byte, and zero is
    the empty byte string. *)
Module Quantity.
Definition t := N.
Definition from_number (n : N) : t := n.
Definition from_bigint (n : N) : t := n.
Definition from_buffer (buf : Buffer) : t := buffer_to_N buf.
Definition toBuffer (q : t) : Buffer := N_to_buffer q.
Definition toBigInt (q : t) : N := q.
End Quantity.

(** Modelled from the spec: [Data] of @ganache/utils is not among the
    sources. A data value is an arbitrary-length opaque byte string;
    [Data.from(hex).toBuffer()] decodes a 0x-prefixed hex string to bytes. *)
Module Data.
Definition t := Buffer.
Definition from (buf : Buffer) : t := buf.
Definition toBuffer (d : t) : Buffer := d.

Definition hex_digit (c : ascii) : option N :=
  let n := N_of_ascii c in
  if (48 <=? n) && (n <=? 57) then Some (n - 48)
  else if (97 <=? n) && (n <=? 102) then Some (n - 87)
  else if (65 <=? n) && (n <=? 70) then Some (n - 55)
  else None.

Fixpoint hex_bytes (s : string) : option Buffer :=
  match s with
  | EmptyString => Some []
  | String _ EmptyString => None
  | String hi (String lo rest) =>
      match hex_digit hi, hex_digit lo, hex_bytes rest with
      | Some h, Some l, Some bs => Some (byte_of_N (16 * h + l) :: bs)
      | _, _, _ => None
      end
  end.

Definition from_string (s : string) : result t :=
  match s with
  | String "0" (String "x" digits) =>
      match hex_bytes digits with
      | Some bs => Ok bs
      | None => Err MalformedHexError
      end
  | _ => Err MalformedHexError
  end.
End Data.

(** Modelled from the spec: [Address] of @ganache/ethereum-address is not
    among the sources. An address is exactly 20 bytes; any other length is
    rejected with MalformedAddressError. *)
Module Address.
Definition t := Buffer.
Definition from (buf : Buffer) : result t :=
  if (List.length buf =? 20)%nat then Ok buf else Err MalformedAddressError.
Definition toBuffer (a : t) : Buffer := a.
End Address.

(** The [to] field: [RPCQUANTITY_EMPTY] for a contract creation, an address
    otherwise. *)
Inductive Recipient :=
| RPCQUANTITY_EMPTY
| ToAddress (a : Address.t).

Definition Recipient_toBuffer (to : Recipient) : Buffer :=
  match to with
  | RPCQUANTITY_EMPTY => BUFFER_EMPTY
  | ToAddress a => Address.toBuffer a
  end.

Definition Recipient_isNull (to : Recipient) : bool :=
  match to with
  | RPCQUANTITY_EMPTY => true
  | ToAddress _ => false
  end.

(** [new BN(buffer)]: an arbitrary-precision integer read big-endian. *)
Definition BN := N.
Definition BN_of_buffer (buf : Buffer) : BN := buffer_to_N buf.

(** ** RLP codec *)

(** Modelled from the spec: the RLP codec @ganache/rlp ([encode],
    [encodeLength], [encodeRange], [digest]) is not among the sources. It
    encodes nested byte/list structures and exposes partial-range encoding:
    [encodeRange] encodes a run of items one by one and [digest] wraps
    already-encoded runs in one list header. *)
Module RLP.

#[local] Set Warnings "-register-all".

Inductive Input :=
| Bytes (b : Buffer)
| Items (l : list Input).

(** The header of a payload of [len] bytes: one byte [offset + len] below 56
    bytes, otherwise [offset + 55 + k] followed by the [k] big-endian bytes
    of [len]. *)
Definition encodeLength (len : N) (offset : N) : Buffer :=
  if len <? 56 then [byte_of_N (len + offset)]
  else
    let hexLength := N_to_buffer len in
    byte_of_N (offset + 55 + buffer_length hexLength) :: hexLength.

Definition encodeBytes (b : Buffer) : Buffer :=
  match b with
  | [x] => if Byte.to_N x <? 128 then [x] else encodeLength 1 128 ++ b
  | _ => encodeLength (buffer_length b) 128 ++ b
  end.

Fixpoint encode (input : Input) : Buffer :=
  match input with
  | Bytes b => encodeBytes b
  | Items l =>
      let payload := List.concat (map encode l) in
      encodeLength (buffer_length payload) 192 ++ payload
  end.

Record EncodedPart := {
  length : N;
  output : list Buffer
}.

(** [encodeRange(items, start, length)]: the encodings of
    [items[start .. start+length-1]], with their total byte length. The
    range lies inside the array at every call. *)
Definition encodeRange (items : list Buffer) (start len : nat) : EncodedPart :=
  let output := map (fun item => encode (Bytes item)) (firstn len (skipn start items)) in
  {| length := fold_left (fun count encoded => count + buffer_length encoded) output 0;
     output := output |}.

(** [digest(ranges, length)]: a list header for [length] payload bytes
    followed by every buffer of every range, in order. *)
Definition digest (ranges : list (list Buffer)) (len : N) : Buffer :=
  encodeLength len 192 ++ List.concat (List.concat ranges).

End RLP.

(** ** Chain context and collaborators *)

Module Common.
Record t := { chainId : N }.
End Common.

(** The result of [ecsign]. *)
Record ECDSASignature := {
  sig_v : N;
  sig_r : Buffer;
  sig_s : Buffer
}.

(** What [computeIntrinsics] returns. *)
Record Intrinsics := {
  i_from : Address.t;
  i_serialized : Buffer;
  i_hash : Data.t;
  i_encodedData : RLP.EncodedPart;
  i_encodedSignature : RLP.EncodedPart
}.

(** The client-RPC transaction object, its hex-quantity fields already read
    as values; [rpc_type] keeps the raw string. *)
Record TypedRpcTransaction := {
  rpc_type : option string;
  rpc_nonce : Quantity.t;
  rpc_gasPrice : Quantity.t;
  rpc_gas : Quantity.t;
  rpc_to : option Address.t;
  rpc_value : Quantity.t;
  rpc_data : Data.t
}.

(** A database payload: the decoded byte fields, in order. *)
Definition LegacyDatabasePayload := list Buffer.
Definition EIP2930AccessListDatabasePayload := list Buffer.
(** A database record: the type marker followed by the payload. *)
Definition TypedDatabaseTransaction := list Buffer.
Definition LegacyDatabaseTx := list Buffer.

(** The access-list variant is not among the sources: an instance is kept as
    what it was constructed from. *)
Inductive EIP2930AccessListTransaction :=
| AccessListFromPayload (data : EIP2930AccessListDatabasePayload) (common : Common.t)
| AccessListFromRpc (data : TypedRpcTransaction) (common : Common.t).

(** Collaborators outside this component: hashing, signing, sender recovery,
    RLP decoding, intrinsic gas of the base class, [parseInt], and the
    constructor of the access-list variant. A collaborator that can raise
    returns an option. *)
Class Externals := {
  keccak : Buffer -> Buffer;
  ecsign : Buffer -> Buffer -> N -> option ECDSASignature;
  recoverSender : Quantity.t -> LegacyDatabaseTx -> N -> option Address.t;
  decode : Buffer -> option (list Buffer);
  calculateIntrinsicGas : Data.t -> Recipient -> N;
  parseInt : string -> js_number;
  EIP2930_fromTxData :
    EIP2930AccessListDatabasePayload + TypedRpcTransaction -> Common.t ->
    option EIP2930AccessListTransaction
}.

(** ** signing.ts *)

Section Signing.
Context `{Externals}.

(** Modelled from the spec: [computeInstrinsicsLegacyTx] of ./signing is not
    among the sources. It recovers the sender from (v, r, s) and the signing
    hash, failing if recovery yields no valid point; it produces the
    serialized byte form, the RLP of the full field list (the type marker in
    slot 0 is never part of it), and its keccak256 hash; it caches the
    encoding of the unsigned fields and of the signature separately. *)
Definition computeInstrinsicsLegacyTx
    (v : Quantity.t) (raw : LegacyDatabaseTx) (chainId : N) : result Intrinsics :=
  let encodedData := RLP.encodeRange raw 1 6 in
  let encodedSignature := RLP.encodeRange raw 7 3 in
  let serialized := RLP.encode (RLP.Items (map RLP.Bytes (slice1 raw))) in
  match recoverSender v raw chainId with
  | None => Err InvalidSignatureError
  | Some sender =>
      Ok {| i_from := sender;
            i_serialized := serialized;
            i_hash := Data.from (keccak serialized);
            i_encodedData := encodedData;
            i_encodedSignature := encodedSignature |}
  end.

End Signing.

(** ** legacy-transaction.ts *)

Module LegacyTransaction.

(** The instance. The fields up to [data] are always set; [v], [r], [s] and
    the derived fields are absent ([undefined]) until set. *)
Record t := {
  common : Common.t;
  type : Quantity.t;
  nonce : Quantity.t;
  gasPrice : Quantity.t;
  gas : Quantity.t;
  to : Recipient;
  value : Quantity.t;
  data : Data.t;
  v : option Quantity.t;
  r : option Quantity.t;
  s : option Quantity.t;
  raw : option LegacyDatabaseTx;
  from : option Address.t;
  serialized : option Buffer;
  hash : option Data.t;
  encodedData : option RLP.EncodedPart;
  encodedSignature : option RLP.EncodedPart
}.

(** The address object handed to the execution engine; [equals] compares the
    buffers. *)
Record VmAddress := { buf : Buffer }.

Definition VmAddress_equals (self a : VmAddress) : bool :=
  if list_eq_dec Byte.byte_eq_dec (buf self) (buf a) then true else false.

(** The object [toVmTransaction] returns. *)
Record VmTransaction := {
  vm_hash : unit -> Buffer;
  vm_nonce : BN;
  vm_gasPrice : BN;
  vm_gasLimit : BN;
  vm_to : option VmAddress;
  vm_value : BN;
  vm_data : Buffer;
  getSenderAddress : unit -> VmAddress;
  getBaseFee : unit -> BN;
  getUpfrontCost : unit -> result BN;
  supports : forall capability : Type, capability -> bool
}.

(** The object [toJSON] returns; [null] and an absent field are [None]. *)
Record Json := {
  json_type : Quantity.t;
  json_hash : option Data.t;
  json_nonce : Quantity.t;
  json_blockHash : option Data.t;
  json_blockNumber : option Quantity.t;
  json_transactionIndex : option Quantity.t;
  json_from : option Address.t;
  json_to : option Recipient;
  json_value : Quantity.t;
  json_gas : Quantity.t;
  json_gasPrice : Quantity.t;
  json_input : Data.t;
  json_v : option Quantity.t;
  json_r : option Quantity.t;
  json_s : option Quantity.t
}.

Definition toJSON (this : t) : Json :=
  {| json_type := type this;
     json_hash := hash this;
     json_nonce := nonce this;
     json_blockHash := None;
     json_blockNumber := None;
     json_transactionIndex := None;
     json_from := from this;
     json_to := if Recipient_isNull (to this) then None else Some (to this);
     json_value := value this;
     json_gas := gas this;
     json_gasPrice := gasPrice this;
     json_input := data this;
     json_v := v this;
     json_r := r this;
     json_s := s this |}.

Section Methods.
Context `{Externals}.

Definition computeIntrinsics
    (v : Quantity.t) (raw : TypedDatabaseTransaction) (chainId : N) : result Intrinsics :=
  computeInstrinsicsLegacyTx v raw chainId.

(** Modelled from the spec: the constructor of the base class
    [RuntimeTransaction] is not among the sources. For an RPC object it
    assigns nonce, gas, to, value and data; v, r, s and every derived field
    stay absent. *)
Definition RuntimeTransaction_rpc (data : TypedRpcTransaction) (common : Common.t)
    (gasPrice : Quantity.t) : t :=
  {| common := common;
     type := Quantity.from_number 0;
     nonce := rpc_nonce data;
     gasPrice := gasPrice;
     gas := rpc_gas data;
     to := match rpc_to data with
           | None => RPCQUANTITY_EMPTY
           | Some a => ToAddress a
           end;
     value := rpc_value data;
     data := rpc_data data;
     v := None; r := None; s := None;
     raw := None; from := None; serialized := None; hash := None;
     encodedData := None; encodedSignature := None |}.

(** [new LegacyTransaction(data, common)]. A payload with fewer than nine
    fields reads an absent field. *)
Definition new (data : LegacyDatabasePayload + TypedRpcTransaction)
    (common : Common.t) : result t :=
  match data with
  | inl data =>
      match data with
      | d0 :: d1 :: d2 :: d3 :: d4 :: d5 :: d6 :: d7 :: d8 :: _ =>
          let type := Quantity.from_number 0 in
          let nonce := Quantity.from_buffer d0 in
          let gasPrice := Quantity.from_buffer d1 in
          let gas := Quantity.from_buffer d2 in
          to <- (if (List.length d3 =? 0)%nat then Ok RPCQUANTITY_EMPTY
                 else (a <- Address.from d3 ;; Ok (ToAddress a))) ;;
          let value := Quantity.from_buffer d4 in
          let data_ := Data.from d5 in
          let v := Quantity.from_buffer d6 in
          let r := Quantity.from_buffer d7 in
          let s := Quantity.from_buffer d8 in
          let raw := Quantity.toBuffer type :: data in
          intrinsics <- computeIntrinsics v raw (Common.chainId common) ;;
          Ok {| common := common;
                type := type;
                nonce := nonce;
                gasPrice := gasPrice;
                gas := gas;
                to := to;
                value := value;
                data := data_;
                v := Some v; r := Some r; s := Some s;
                raw := Some raw;
                from := Some (i_from intrinsics);
                serialized := Some (i_serialized intrinsics);
                hash := Some (i_hash intrinsics);
                encodedData := Some (i_encodedData intrinsics);
                encodedSignature := Some (i_encodedSignature intrinsics) |}
      | _ => Err TypeError
      end
  | inr data =>
      Ok (RuntimeTransaction_rpc data common (Quantity.from_number (rpc_gasPrice data)))
  end.

Definition fromTxData (data : LegacyDatabasePayload + TypedRpcTransaction)
    (common : Common.t) : result t :=
  new data common.

(** [toVmTransaction()]. Reading [this.from.toBuffer()] on an instance whose
    sender is absent raises. *)
Definition toVmTransaction (this : t) : result VmTransaction :=
  match from this with
  | None => Err TypeError
  | Some from_ =>
      let sender := Address.toBuffer from_ in
      let to_ := Recipient_toBuffer (to this) in
      let data_ := Data.toBuffer (data this) in
      Ok {| vm_hash := fun _ => BUFFER_32_ZERO;
            vm_nonce := BN_of_buffer (Quantity.toBuffer (nonce this));
            vm_gasPrice := BN_of_buffer (Quantity.toBuffer (gasPrice this));
            vm_gasLimit := BN_of_buffer (Quantity.toBuffer (gas this));
            vm_to := if (List.length to_ =? 0)%nat then None else Some {| buf := to_ |};
            vm_value := BN_of_buffer (Quantity.toBuffer (value this));
            vm_data := data_;
            getSenderAddress := fun _ => {| buf := sender |};
            getBaseFee := fun _ =>
              let fee := calculateIntrinsicGas (data this) (to this) in
              BN_of_buffer (Quantity.toBuffer (Quantity.from_bigint fee));
            getUpfrontCost := fun _ =>
              let c := Quantity.toBigInt (gas this) * Quantity.toBigInt (gasPrice this)
                       + Quantity.toBigInt (value this) in
              Ok (BN_of_buffer (Quantity.toBuffer (Quantity.from_bigint c)));
            supports := fun _ capability => false |}
  end.

Definition toEthRawTransaction (this : t) (v r s : Buffer) : LegacyDatabaseTx :=
  [ Quantity.toBuffer (type this);
    Quantity.toBuffer (nonce this);
    Quantity.toBuffer (gasPrice this);
    Quantity.toBuffer (gas this);
    Recipient_toBuffer (to this);
    Quantity.toBuffer (value this);
    Data.toBuffer (data this);
    v;
    r;
    s ].

(** [signAndHash(privateKey)], as a transition of the instance: the instance
    after the call and what the call returned or raised. *)
Definition signAndHash (privateKey : Buffer) (this : t) : t * result unit :=
  match v this with
  | Some _ => (this, Err AlreadySignedError)
  | None =>
      let chainId := Common.chainId (common this) in
      let raw := toEthRawTransaction this
                   (Quantity.toBuffer (Quantity.from_number chainId))
                   BUFFER_EMPTY BUFFER_EMPTY in
      let data_ := RLP.encodeRange raw 1 6 in
      let dataLength := RLP.length data_ in
      let ending := RLP.encodeRange raw 7 3 in
      let msgHash :=
        keccak (RLP.digest [RLP.output data_; RLP.output ending]
                           (dataLength + RLP.length ending)) in
      match ecsign msgHash privateKey chainId with
      | None => (this, Err (ExternalError "ecsign"%string))
      | Some sig =>
          let v' := Quantity.from_number (sig_v sig) in
          let r' := Quantity.from_buffer (sig_r sig) in
          let s' := Quantity.from_buffer (sig_s sig) in
          let raw := array_set 7 (Quantity.toBuffer v') raw in
          let raw := array_set 8 (Quantity.toBuffer r') raw in
          let raw := array_set 9 (Quantity.toBuffer s') raw in
          let encodedSignature := RLP.encodeRange raw 7 3 in
          let serialized :=
            RLP.digest [RLP.output data_; RLP.output encodedSignature]
                       (dataLength + RLP.length encodedSignature) in
          ({| common := common this;
              type := type this;
              nonce := nonce this;
              gasPrice := gasPrice this;
              gas := gas this;
              to := to this;
              value := value this;
              data := data this;
              v := Some v'; r := Some r'; s := Some s';
              raw := Some raw;
              from := from this;
              serialized := Some serialized;
              hash := Some (Data.from (keccak serialized));
              encodedData := Some data_;
              encodedSignature := Some encodedSignature |},
           Ok tt)
      end
  end.

End Methods.
End LegacyTransaction.

(** ** The transaction factory *)

Module TransactionFactory.

Definition UNTYPED_TX_START_BYTE : Z := 0xc0.
Definition LEGACY_TX_TYPE_ID : Z := 0x0.
Definition ACCESS_LIST_TX_TYPE_ID : Z := 0x1.

(** The two classes the factory dispatches on; [typeOf] returns one of them
    or nothing. *)
Inductive TransactionClass :=
| LegacyTransactionClass
| EIP2930AccessListTransactionClass.

(** What the factory constructs. *)
Inductive Transaction :=
| Legacy (tx : LegacyTransaction.t)
| AccessList (tx : EIP2930AccessListTransaction).

(** [type >= n] on JS numbers: false on [undefined] and [NaN]. *)
Definition js_geb (type : js_number) (n : Z) : bool :=
  match type with
  | Num k => (n <=? k)%Z
  | _ => false
  end.

(** [type === n] *)
Definition js_eqb (type : js_number) (n : Z) : bool :=
  match type with
  | Num k => (k =? n)%Z
  | _ => false
  end.

(** [type === undefined] *)
Definition js_is_undefined (type : js_number) : bool :=
  match type with
  | undefined => true
  | _ => false
  end.

Definition typeOf (type : js_number) : option TransactionClass :=
  if js_geb type UNTYPED_TX_START_BYTE
     || js_eqb type LEGACY_TX_TYPE_ID
     || js_is_undefined type
  then Some LegacyTransactionClass
  else if js_eqb type ACCESS_LIST_TX_TYPE_ID
  then Some EIP2930AccessListTransactionClass
  else None.

Definition typeOfRaw (raw : list Buffer) : result (option TransactionClass) :=
  if (List.length raw =? 9)%nat then Ok (Some LegacyTransactionClass)
  else
    match raw with
    | [] => Err TypeError
    | marker :: _ => Ok (typeOf (first_byte marker))
    end.

Section Dispatch.
Context `{Externals}.

Definition typeOfRPC (rpc : TypedRpcTransaction) : option TransactionClass :=
  match rpc_type rpc with
  | None => Some LegacyTransactionClass
  | Some type =>
      let txType := parseInt type in
      typeOf txType
  end.

Definition fromRpc (txData : TypedRpcTransaction) (common : Common.t)
    : result Transaction :=
  let txType := typeOfRPC txData in
  match txType with
  | Some LegacyTransactionClass =>
      tx <- LegacyTransaction.fromTxData (inr txData) common ;; Ok (Legacy tx)
  | Some EIP2930AccessListTransactionClass =>
      tx <- external "EIP2930AccessListTransaction"%string (EIP2930_fromTxData (inr txData) common) ;;
      Ok (AccessList tx)
  | None => Err (UnsupportedRpcType (rpc_type txData))
  end.

Definition fromDatabaseTx (txData : TypedDatabaseTransaction) (common : Common.t)
    : result Transaction :=
  match txData with
  | [] => Err TypeError
  | marker :: _ =>
      let type := first_byte marker in
      let data := slice1 txData in
      let txType := typeOf type in
      match txType with
      | Some LegacyTransactionClass =>
          tx <- LegacyTransaction.fromTxData (inl data) common ;; Ok (Legacy tx)
      | Some EIP2930AccessListTransactionClass =>
          tx <- external "EIP2930AccessListTransaction"%string (EIP2930_fromTxData (inl data) common) ;;
          Ok (AccessList tx)
      | None => Err (UnsupportedTransactionType type)
      end
  end.

Definition fromString (txData : string) (common : Common.t) : result Transaction :=
  data <- Data.from_string txData ;;
  let data := Data.toBuffer data in
  let type := first_byte data in
  let txType := typeOf type in
  match txType with
  | Some LegacyTransactionClass =>
      let data := if js_is_undefined type then slice1 data else data in
      raw <- external "decode"%string (decode data) ;;
      tx <- LegacyTransaction.fromTxData (inl raw) common ;;
      Ok (Legacy tx)
  | _ =>
      let data := slice1 data in
      match txType with
      | Some EIP2930AccessListTransactionClass =>
          raw <- external "decode"%string (decode data) ;;
          tx <- external "EIP2930AccessListTransaction"%string (EIP2930_fromTxData (inl raw) common) ;;
          Ok (AccessList tx)
      | _ => Err (UnsupportedTransactionType type)
      end
  end.

End Dispatch.
End TransactionFactory.

(** ** The list that is signed *)

(** The nine fields that get signed: nonce to data, then the chain id in
    the place of v, then two empty slots. *)
Definition unsigned_fields (this : LegacyTransaction.t) : list Buffer :=
  [ Quantity.toBuffer (LegacyTransaction.nonce this);
    Quantity.toBuffer (LegacyTransaction.gasPrice this);
    Quantity.toBuffer (LegacyTransaction.gas this);
    Recipient_toBuffer (LegacyTransaction.to this);
    Quantity.toBuffer (LegacyTransaction.value this);
    Data.toBuffer (LegacyTransaction.data this);
    Quantity.toBuffer
      (Quantity.from_number (Common.chainId (LegacyTransaction.common this)));
    BUFFER_EMPTY;
    BUFFER_EMPTY ].

(** ** Instances in reach *)

(** The instance with its sender replaced. *)
Definition with_from (sender : Address.t) (tx : LegacyTransaction.t)
    : LegacyTransaction.t :=
  {| LegacyTransaction.common := LegacyTransaction.common tx;
     LegacyTransaction.type := LegacyTransaction.type tx;
     LegacyTransaction.nonce := LegacyTransaction.nonce tx;
     LegacyTransaction.gasPrice := LegacyTransaction.gasPrice tx;
     LegacyTransaction.gas := LegacyTransaction.gas tx;
     LegacyTransaction.to := LegacyTransaction.to tx;
     LegacyTransaction.value := LegacyTransaction.value tx;
     LegacyTransaction.data := LegacyTransaction.data tx;
     LegacyTransaction.v := LegacyTransaction.v tx;
     LegacyTransaction.r := LegacyTransaction.r tx;
     LegacyTransaction.s := LegacyTransaction.s tx;
     LegacyTransaction.raw := LegacyTransaction.raw tx;
     LegacyTransaction.from := Some sender;
     LegacyTransaction.serialized := LegacyTransaction.serialized tx;
     LegacyTransaction.hash := LegacyTransaction.hash tx;
     LegacyTransaction.encodedData := LegacyTransaction.encodedData tx;
     LegacyTransaction.encodedSignature := LegacyTransaction.encodedSignature tx |}.

(** The recipient is the empty sentinel or an address of 20 bytes. *)
Definition recipient_ok (to : Recipient) : Prop :=
  match to with
  | RPCQUANTITY_EMPTY => True
  | ToAddress a => List.length a = 20%nat
  end.

Section Reach.
Context `{Externals}.

(** Nothing of a signature is stored. *)
Definition unsigned_state (tx : LegacyTransaction.t) : Prop :=
  LegacyTransaction.v tx = None
  /\ LegacyTransaction.r tx = None
  /\ LegacyTransaction.s tx = None
  /\ LegacyTransaction.raw tx = None
  /\ LegacyTransaction.serialized tx = None
  /\ LegacyTransaction.hash tx = None
  /\ LegacyTransaction.encodedData tx = None
  /\ LegacyTransaction.encodedSignature tx = None.

(** The signature and everything computed from it is stored, and the hash
    is keccak256 of the serialized bytes. *)
Definition signed_state (tx : LegacyTransaction.t) : Prop :=
  exists (v r s : Quantity.t) (raw : LegacyDatabaseTx) (bytes : Buffer)
         (cached signature : RLP.EncodedPart),
    LegacyTransaction.v tx = Some v
    /\ LegacyTransaction.r tx = Some r
    /\ LegacyTransaction.s tx = Some s
    /\ LegacyTransaction.raw tx = Some raw
    /\ LegacyTransaction.serialized tx = Some bytes
    /\ LegacyTransaction.hash tx = Some (Data.from (keccak bytes))
    /\ LegacyTransaction.encodedData tx = Some cached
    /\ LegacyTransaction.encodedSignature tx = Some signature.

(** The instances a program can hold: what a constructor returned, and what
    any run of [signAndHash] calls, failed or not, made of it. *)
Inductive reachable : LegacyTransaction.t -> Prop :=
| reach_new (data : LegacyDatabasePayload + TypedRpcTransaction)
    (common : Common.t) (tx : LegacyTransaction.t) :
    LegacyTransaction.new data common = Ok tx -> reachable tx
| reach_sign (privateKey : Buffer) (tx : LegacyTransaction.t) :
    reachable tx ->
    reachable (fst (LegacyTransaction.signAndHash privateKey tx)).

End Reach.

(** ** Concrete collaborators

    Stand-ins for the collaborators, used only to run the definitions above
    on concrete inputs. Every property below is stated and proved for
    arbitrary collaborators. *)

Module Fixture.

(** Decodes a run of short byte strings: a single byte below 0x80, or a
    header 0x80 + n followed by n <= 55 bytes. *)
Fixpoint decode_items (fuel : nat) (bs : Buffer) : option (list Buffer) :=
  match fuel with
  | O => match bs with [] => Some [] | _ => None end
  | S fuel' =>
      match bs with
      | [] => Some []
      | b :: rest =>
          let n := Byte.to_N b in
          if n <? 128 then option_map (cons [b]) (decode_items fuel' rest)
          else if n <? 184 then
            let k := N.to_nat (n - 128) in
            if (List.length rest <? k)%nat then None
            else option_map (cons (firstn k rest)) (decode_items fuel' (skipn k rest))
          else None
      end
  end.

(** Decodes a short RLP list (header 0xc0 + n, n <= 55) of short strings. *)
Definition decode_short_list (bs : Buffer) : option (list Buffer) :=
  match bs with
  | [] => None
  | h :: rest =>
      let n := Byte.to_N h in
      if (192 <=? n) && (n <? 248) && (N.of_nat (List.length rest) =? n - 192)
      then decode_items (List.length rest) rest
      else None
  end.

Definition sign (msgHash privateKey : Buffer) (chainId : N) : option ECDSASignature :=
  if (List.length privateKey =? 32)%nat
  then Some {| sig_v := chainId * 2 + 35; sig_r := msgHash; sig_s := privateKey |}
  else None.

Definition recover (v : Quantity.t) (raw : LegacyDatabaseTx) (chainId : N)
    : option Address.t :=
  if (v =? 27) || (v =? 28) || (v =? chainId * 2 + 35) || (v =? chainId * 2 + 36)
  then Some (repeat x11 20)
  else None.

(** The value of the leading digits of [s] in the given radix, as
    [parseInt] reads them: it stops at the first character that is not a
    digit; no digit at all is [None]. *)
Fixpoint digits_value (radix : N) (s : string) (acc : option N) : option N :=
  match s with
  | EmptyString => acc
  | String c rest =>
      match Data.hex_digit c with
      | Some d =>
          if d <? radix
          then digits_value radix rest
                 (Some (match acc with Some a => a * radix + d | None => d end))
          else acc
      | None => acc
      end
  end.

(** [parseInt] on an unsigned string: hexadecimal behind 0x, decimal
    otherwise, [NaN] without a digit. *)
Definition parse_type (s : string) : js_number :=
  match match s with
        | String "0" (String "x" digits) => digits_value 16 digits None
        | _ => digits_value 10 s None
        end with
  | Some n => Num (Z.of_N n)
  | None => NaN
  end.

Definition accessList (data : EIP2930AccessListDatabasePayload + TypedRpcTransaction)
    (common : Common.t) : option EIP2930AccessListTransaction :=
  Some match data with
       | inl payload => AccessListFromPayload payload common
       | inr rpc => AccessListFromRpc rpc common
       end.

Definition externals : Externals :=
  {| keccak := fun b => rev b;
     ecsign := sign;
     recoverSender := recover;
     decode := decode_short_list;
     calculateIntrinsicGas := fun _ _ => 21000;
     parseInt := parse_type;
     EIP2930_fromTxData := accessList |}.

Definition mainnet : Common.t := {| Common.chainId := 1 |}.

(** Nine empty fields followed by a valid pre-EIP-155 [v]: a contract
    creation with every quantity zero. *)
Definition payload : LegacyDatabasePayload :=
  [[]; []; []; []; []; []; [x1b]; [x01]; [x01]].

(** An unsigned instance, as built from an RPC object. *)
Definition unsigned : LegacyTransaction.t :=
  LegacyTransaction.RuntimeTransaction_rpc
    {| rpc_type := None; rpc_nonce := 0; rpc_gasPrice := 1; rpc_gas := 21000;
       rpc_to := None; rpc_value := 0; rpc_data := [] |}
    mainnet 1.

Definition privateKey : Buffer := repeat x01 32.

(** A plain transfer whose sender is known: gas 21000, gas price 1,
    value 0. *)
Definition transfer : LegacyTransaction.t :=
  {| LegacyTransaction.common := mainnet;
     LegacyTransaction.type := 0;
     LegacyTransaction.nonce := 0;
     LegacyTransaction.gasPrice := 1;
     LegacyTransaction.gas := 21000;
     LegacyTransaction.to := ToAddress (repeat x22 20);
     LegacyTransaction.value := 0;
     LegacyTransaction.data := [];
     LegacyTransaction.v := None;
     LegacyTransaction.r := None;
     LegacyTransaction.s := None;
     LegacyTransaction.raw := None;
     LegacyTransaction.from := Some (repeat x11 20);
     LegacyTransaction.serialized := None;
     LegacyTransaction.hash := None;
     LegacyTransaction.encodedData := None;
     LegacyTransaction.encodedSignature := None |}.

(** The wire form of [payload], and the same bytes behind an explicit 0x00
    type byte. *)
Definition wire : string := "0xc98080808080801b0101".
Definition wire_with_type_byte : string := "0x00c98080808080801b0101".

(** An access-list envelope around an empty list, and an envelope of an
    unknown type. *)
Definition wire_access_list : string := "0x01c0".
Definition wire_unknown_type : string := "0x02c0".

Definition rpc (type : option string) : TypedRpcTransaction :=
  {| rpc_type := type; rpc_nonce := 0; rpc_gasPrice := 1; rpc_gas := 21000;
     rpc_to := None; rpc_value := 0; rpc_data := [] |}.


End Fixture.

(** * Properties *)

(** ** Bytes and big-endian integers *)

Lemma byte_of_N_value (n : N) : Byte.to_N (byte_of_N n) = n mod 256.
Proof.
  unfold byte_of_N.
  destruct (Byte.of_N (n mod 256)) as [b|] eqn:E.
  - now apply Byte.to_of_N.
  - apply Byte.of_N_None_iff in E.
    pose proof (N.mod_upper_bound n 256). lia.
Qed.

Lemma buffer_to_N_acc (buf : Buffer) (a : N) :
  fold_left (fun acc b => acc * 256 + Byte.to_N b) buf a
  = a * 256 ^ N.of_nat (List.length buf) + buffer_to_N buf.
Proof.
  unfold buffer_to_N. revert a.
  induction buf as [|b buf IH]; intros a.
  - simpl. lia.
  - cbn [fold_left List.length].
    rewrite IH, (IH (0 * 256 + Byte.to_N b)).
    rewrite Nat2N.inj_succ, N.pow_succ_r'. lia.
Qed.

Lemma buffer_to_N_cons (b : byte) (buf : Buffer) :
  buffer_to_N (b :: buf)
  = Byte.to_N b * 256 ^ N.of_nat (List.length buf) + buffer_to_N buf.
Proof.
  unfold buffer_to_N at 1. cbn [fold_left].
  rewrite buffer_to_N_acc. lia.
Qed.

Lemma be_digits_value (fuel : nat) :
  forall (n : N) (acc : Buffer),
    n < 2 ^ N.of_nat fuel ->
    buffer_to_N (be_digits fuel n acc)
    = n * 256 ^ N.of_nat (List.length acc) + buffer_to_N acc.
Proof.
  induction fuel as [|fuel IH]; intros n acc Hn.
  - simpl in *. assert (n = 0) by lia. subst. lia.
  - cbn [be_digits].
    destruct (N.eqb_spec n 0) as [->|Hnz]; [lia|].
    rewrite IH.
    + rewrite buffer_to_N_cons, byte_of_N_value.
      cbn [List.length]. rewrite Nat2N.inj_succ, N.pow_succ_r'.
      pose proof (N.div_mod n 256 ltac:(lia)) as D.
      set (q := n / 256) in *. set (m := n mod 256) in *.
      set (p := 256 ^ N.of_nat (List.length acc)).
      clearbody q m p. subst n. nia.
    + rewrite Nat2N.inj_succ, N.pow_succ_r' in Hn.
      apply N.Div0.div_lt_upper_bound. lia.
Qed.

(** Reading back the canonical bytes of a quantity gives the quantity. *)
Lemma buffer_to_N_to_buffer (n : N) : buffer_to_N (N_to_buffer n) = n.
Proof.
  unfold N_to_buffer.
  rewrite be_digits_value.
  - change (buffer_to_N []) with 0. cbn [List.length N.of_nat].
    rewrite N.pow_0_r. lia.
  - rewrite N2Nat.id. apply N.size_gt.
Qed.

(** ** RLP: a digest of encoded ranges is the encoding of the list *)

Lemma encoded_count (out : list Buffer) (count : N) :
  fold_left (fun count encoded => count + buffer_length encoded) out count
  = count + buffer_length (List.concat out).
Proof.
  revert count. induction out as [|e out IH]; intros count.
  - cbn. unfold buffer_length. simpl. lia.
  - cbn [fold_left List.concat]. rewrite IH.
    unfold buffer_length. rewrite length_app. lia.
Qed.

Lemma encodeRange_length (items : list Buffer) (start len : nat) :
  RLP.length (RLP.encodeRange items start len)
  = buffer_length (List.concat (RLP.output (RLP.encodeRange items start len))).
Proof.
  unfold RLP.encodeRange. cbn [RLP.length RLP.output].
  now rewrite encoded_count.
Qed.

Lemma digest_pair (a b : RLP.EncodedPart) :
  RLP.length a = buffer_length (List.concat (RLP.output a)) ->
  RLP.length b = buffer_length (List.concat (RLP.output b)) ->
  RLP.digest [RLP.output a; RLP.output b] (RLP.length a + RLP.length b)
  = RLP.encodeLength (buffer_length (List.concat (RLP.output a ++ RLP.output b))) 192
    ++ List.concat (RLP.output a ++ RLP.output b).
Proof.
  intros Ha Hb. unfold RLP.digest. cbn [List.concat].
  rewrite app_nil_r, Ha, Hb. f_equal.
  f_equal. unfold buffer_length. rewrite concat_app, length_app. lia.
Qed.

Lemma encode_items_bytes (fields : list Buffer) :
  RLP.encode (RLP.Items (map RLP.Bytes fields))
  = let payload := List.concat (map (fun item => RLP.encode (RLP.Bytes item)) fields) in
    RLP.encodeLength (buffer_length payload) 192 ++ payload.
Proof.
  cbn [RLP.encode]. now rewrite map_map.
Qed.

(** The two ranges [1..6] and [7..9] of a 10-slot raw array, digested
    together, are the RLP encoding of the list of slots 1 to 9. *)
Lemma digest_ranges_is_list_encoding (t f1 f2 f3 f4 f5 f6 f7 f8 f9 : Buffer) :
  let raw := [t; f1; f2; f3; f4; f5; f6; f7; f8; f9] in
  let data := RLP.encodeRange raw 1 6 in
  let signature := RLP.encodeRange raw 7 3 in
  RLP.digest [RLP.output data; RLP.output signature]
             (RLP.length data + RLP.length signature)
  = RLP.encode (RLP.Items (map RLP.Bytes [f1; f2; f3; f4; f5; f6; f7; f8; f9])).
Proof.
  intros raw data signature.
  rewrite digest_pair by apply encodeRange_length.
  rewrite encode_items_bytes. reflexivity.
Qed.

(** ** The byte classifier *)

(** A number from 0xC0 up starts an RLP list: Legacy. *)
Lemma typeOf_list_prefix (b : Z) :
  (0xc0 <= b)%Z ->
  TransactionFactory.typeOf (Num b) = Some TransactionFactory.LegacyTransactionClass.
Proof.
  intros Hb. unfold TransactionFactory.typeOf, TransactionFactory.js_geb.
  unfold TransactionFactory.UNTYPED_TX_START_BYTE.
  destruct (Z.leb_spec 0xc0 b); [reflexivity | lia].
Qed.

(** C2. [typeOf] maps an absent byte to Legacy, every byte >= 0xC0 to
    Legacy, 0x00 to Legacy, 0x01 to AccessList, and every other value
    (0x02 among them) to no variant at all. *)
Theorem typeOf_classification :
  TransactionFactory.typeOf undefined
    = Some TransactionFactory.LegacyTransactionClass
  /\ (forall b : Z, (0xc0 <= b)%Z ->
        TransactionFactory.typeOf (Num b)
          = Some TransactionFactory.LegacyTransactionClass)
  /\ TransactionFactory.typeOf (Num 0x00)
       = Some TransactionFactory.LegacyTransactionClass
  /\ TransactionFactory.typeOf (Num 0x01)
       = Some TransactionFactory.EIP2930AccessListTransactionClass
  /\ (forall b : Z, (b < 0xc0)%Z -> b <> 0%Z -> b <> 1%Z ->
        TransactionFactory.typeOf (Num b) = None)
  /\ TransactionFactory.typeOf (Num 0x02) = None.
Proof.
  repeat split; try reflexivity.
  - exact typeOf_list_prefix.
  - intros b Hb H0 H1.
    unfold TransactionFactory.typeOf, TransactionFactory.js_geb,
      TransactionFactory.js_eqb, TransactionFactory.js_is_undefined,
      TransactionFactory.UNTYPED_TX_START_BYTE,
      TransactionFactory.LEGACY_TX_TYPE_ID,
      TransactionFactory.ACCESS_LIST_TX_TYPE_ID.
    destruct (Z.leb_spec 0xc0 b); [lia|].
    destruct (Z.eqb_spec b 0); [lia|].
    destruct (Z.eqb_spec b 1); [lia|].
    reflexivity.
Qed.

Lemma typeOf_classification_witness :
  TransactionFactory.typeOf (Num 0xf8)
    = Some TransactionFactory.LegacyTransactionClass
  /\ TransactionFactory.typeOf (Num 0x7f) = None.
Proof.
  destruct typeOf_classification as (_ & Hlist & _ & _ & Hother & _).
  split.
  - apply Hlist. discriminate.
  - apply Hother; [reflexivity | discriminate | discriminate].
Defined.

(** A byte read from a buffer is a number between 0 and 255. *)
Lemma first_byte_range (b : byte) (rest : Buffer) :
  exists n : Z, first_byte (b :: rest) = Num n /\ (0 <= n < 256)%Z.
Proof.
  exists (Z.of_N (Byte.to_N b)). split; [reflexivity|].
  pose proof (Byte.to_N_bounded b). lia.
Qed.

(** ** The execution view *)

Section ExecutionView.
Context `{Externals}.

(** The view exists exactly when the sender is present. *)
Lemma toVmTransaction_defined (this : LegacyTransaction.t) :
  (exists vm, LegacyTransaction.toVmTransaction this = Ok vm)
  <-> LegacyTransaction.from this <> None.
Proof.
  unfold LegacyTransaction.toVmTransaction.
  destruct (LegacyTransaction.from this); split; intros; try congruence.
  - eexists; reflexivity.
  - destruct H0 as [vm Hvm]. discriminate.
Qed.


(** C8. Whatever the instance and whatever the capability asked for, the
    execution view answers [false]; there is no view only when the sender
    is absent. *)
Theorem supports_always_false :
  forall this : LegacyTransaction.t,
    match LegacyTransaction.toVmTransaction this with
    | Ok vm =>
        forall (capability : Type) (c : capability),
          LegacyTransaction.supports vm capability c = false
    | Err e => LegacyTransaction.from this = None /\ e = TypeError
    end.
Proof.
  intros this. unfold LegacyTransaction.toVmTransaction.
  destruct (LegacyTransaction.from this); [reflexivity | now split].
Qed.

(** C10. Whatever the instance, signed or not, and whatever hash it
    stores, the [hash()] of its execution view is the constant buffer of 32
    zero bytes; there is no view only when the sender is absent. *)
Theorem vm_hash_is_zero_buffer :
  forall this : LegacyTransaction.t,
    match LegacyTransaction.toVmTransaction this with
    | Ok vm =>
        LegacyTransaction.vm_hash vm tt = BUFFER_32_ZERO
        /\ List.length (LegacyTransaction.vm_hash vm tt) = 32%nat
        /\ Forall (fun b => b = x00) (LegacyTransaction.vm_hash vm tt)
    | Err e => LegacyTransaction.from this = None /\ e = TypeError
    end.
Proof.
  intros this. unfold LegacyTransaction.toVmTransaction.
  destruct (LegacyTransaction.from this); [|now split].
  cbn [LegacyTransaction.vm_hash]. repeat split.
  unfold BUFFER_32_ZERO. apply Forall_forall. intros b Hb.
  now apply repeat_spec in Hb.
Qed.

End ExecutionView.

(** ** Signing *)

Section SignAndHash.
Context `{Externals}.

(** What [signAndHash] does once past the guard. *)
Lemma signAndHash_unsigned (privateKey : Buffer) (this : LegacyTransaction.t) :
  LegacyTransaction.v this = None ->
  let chainId := Common.chainId (LegacyTransaction.common this) in
  let msgHash := keccak (RLP.encode (RLP.Items (map RLP.Bytes (unsigned_fields this)))) in
  LegacyTransaction.signAndHash privateKey this
  = match ecsign msgHash privateKey chainId with
    | None => (this, Err (ExternalError "ecsign"%string))
    | Some sig =>
        let v' := Quantity.from_number (sig_v sig) in
        let r' := Quantity.from_buffer (sig_r sig) in
        let s' := Quantity.from_buffer (sig_s sig) in
        let raw :=
          LegacyTransaction.toEthRawTransaction this
            (Quantity.toBuffer v') (Quantity.toBuffer r') (Quantity.toBuffer s') in
        let data := RLP.encodeRange raw 1 6 in
        let encodedSignature := RLP.encodeRange raw 7 3 in
        let serialized :=
          RLP.digest [RLP.output data; RLP.output encodedSignature]
                     (RLP.length data + RLP.length encodedSignature) in
        ({| LegacyTransaction.common := LegacyTransaction.common this;
            LegacyTransaction.type := LegacyTransaction.type this;
            LegacyTransaction.nonce := LegacyTransaction.nonce this;
            LegacyTransaction.gasPrice := LegacyTransaction.gasPrice this;
            LegacyTransaction.gas := LegacyTransaction.gas this;
            LegacyTransaction.to := LegacyTransaction.to this;
            LegacyTransaction.value := LegacyTransaction.value this;
            LegacyTransaction.data := LegacyTransaction.data this;
            LegacyTransaction.v := Some v';
            LegacyTransaction.r := Some r';
            LegacyTransaction.s := Some s';
            LegacyTransaction.raw := Some raw;
            LegacyTransaction.from := LegacyTransaction.from this;
            LegacyTransaction.serialized := Some serialized;
            LegacyTransaction.hash := Some (Data.from (keccak serialized));
            LegacyTransaction.encodedData := Some data;
            LegacyTransaction.encodedSignature := Some encodedSignature |},
         Ok tt)
    end.
Proof.
  intros Hv chainId msgHash.
  unfold LegacyTransaction.signAndHash. rewrite Hv.
  unfold LegacyTransaction.toEthRawTransaction.
  rewrite digest_ranges_is_list_encoding.
  fold chainId. change (keccak _) with msgHash at 1.
  destruct (ecsign msgHash privateKey chainId) as [sig|]; reflexivity.
Qed.

(** C3. On an instance whose v is set, [signAndHash] fails with the
    already-signed error and leaves the instance as it was; a call that
    succeeded started from an absent v, set v, and makes every later call
    fail that way; a call on an unsigned instance never ends in the
    already-signed error. *)
Theorem signAndHash_only_once :
  (forall (privateKey : Buffer) (this : LegacyTransaction.t) (q : Quantity.t),
     LegacyTransaction.v this = Some q ->
     LegacyTransaction.signAndHash privateKey this = (this, Err AlreadySignedError))
  /\ (forall (privateKey : Buffer) (this this' : LegacyTransaction.t),
        LegacyTransaction.signAndHash privateKey this = (this', Ok tt) ->
        LegacyTransaction.v this = None
        /\ LegacyTransaction.v this' <> None
        /\ forall privateKey' : Buffer,
             LegacyTransaction.signAndHash privateKey' this'
             = (this', Err AlreadySignedError))
  /\ (forall (privateKey : Buffer) (this : LegacyTransaction.t),
        LegacyTransaction.v this = None ->
        snd (LegacyTransaction.signAndHash privateKey this) <> Err AlreadySignedError).
Proof.
  assert (Hguard :
    forall (privateKey : Buffer) (this : LegacyTransaction.t) (q : Quantity.t),
      LegacyTransaction.v this = Some q ->
      LegacyTransaction.signAndHash privateKey this = (this, Err AlreadySignedError)).
  { intros privateKey this q Hv.
    unfold LegacyTransaction.signAndHash. now rewrite Hv. }
  split; [exact Hguard|]. split.
  - intros privateKey this this' Hsign.
    destruct (LegacyTransaction.v this) as [q|] eqn:Hv.
    + rewrite (Hguard _ _ _ Hv) in Hsign. discriminate.
    + split; [reflexivity|].
      rewrite (signAndHash_unsigned _ _ Hv) in Hsign. cbv zeta in Hsign.
      destruct (ecsign _ privateKey _) as [sig|]; [|discriminate].
      injection Hsign as <-.
      split; [discriminate|].
      intros privateKey'. eapply Hguard. reflexivity.
  - intros privateKey this Hv.
    rewrite (signAndHash_unsigned _ _ Hv). cbv zeta.
    destruct (ecsign _ privateKey _); cbn [snd]; discriminate.
Qed.

(** C4. The raw array built for signing has ten slots, the type first; the
    hash handed to the signer is keccak256 of the RLP encoding of the list
    of the nine slots after it: nonce, gasPrice, gas, to, value, data, the
    chain id, and two empty slots. The signature stored is the one the
    signer returns for that hash. *)
Theorem signAndHash_signing_hash
    (privateKey : Buffer) (this : LegacyTransaction.t) :
  LegacyTransaction.v this = None ->
  let chainId := Common.chainId (LegacyTransaction.common this) in
  let fields :=
    [ Quantity.toBuffer (LegacyTransaction.nonce this);
      Quantity.toBuffer (LegacyTransaction.gasPrice this);
      Quantity.toBuffer (LegacyTransaction.gas this);
      Recipient_toBuffer (LegacyTransaction.to this);
      Quantity.toBuffer (LegacyTransaction.value this);
      Data.toBuffer (LegacyTransaction.data this);
      Quantity.toBuffer (Quantity.from_number chainId);
      BUFFER_EMPTY;
      BUFFER_EMPTY ] in
  let msgHash := keccak (RLP.encode (RLP.Items (map RLP.Bytes fields))) in
  LegacyTransaction.toEthRawTransaction this
    (Quantity.toBuffer (Quantity.from_number chainId)) BUFFER_EMPTY BUFFER_EMPTY
  = Quantity.toBuffer (LegacyTransaction.type this) :: fields
  /\ match ecsign msgHash privateKey chainId with
     | None =>
         LegacyTransaction.signAndHash privateKey this
         = (this, Err (ExternalError "ecsign"%string))
     | Some sig =>
         exists this' : LegacyTransaction.t,
           LegacyTransaction.signAndHash privateKey this = (this', Ok tt)
           /\ LegacyTransaction.v this' = Some (Quantity.from_number (sig_v sig))
           /\ LegacyTransaction.r this' = Some (Quantity.from_buffer (sig_r sig))
           /\ LegacyTransaction.s this' = Some (Quantity.from_buffer (sig_s sig))
     end.
Proof.
  intros Hv chainId fields msgHash.
  split; [reflexivity|].
  pose proof (signAndHash_unsigned privateKey this Hv) as Hrun.
  cbv zeta in Hrun. fold chainId in Hrun.
  change (unsigned_fields this) with fields in Hrun. fold msgHash in Hrun.
  destruct (ecsign msgHash privateKey chainId) as [sig|]; [|exact Hrun].
  eexists. split; [exact Hrun|]. repeat split.
Qed.

(** C5. After a successful [signAndHash] the stored serialized bytes are
    the digest (one list header, then the buffers in order) of the cached
    encoding of the six unsigned fields followed by the encoding of the new
    (v, r, s); they are the RLP encoding of the nine-field signed list; and
    the stored hash is keccak256 of exactly those bytes. *)
Theorem signAndHash_serialized_and_hash
    (privateKey : Buffer) (this this' : LegacyTransaction.t) :
  LegacyTransaction.signAndHash privateKey this = (this', Ok tt) ->
  exists (v' r' s' : Quantity.t) (cached signature : RLP.EncodedPart)
         (bytes : Buffer),
    LegacyTransaction.v this' = Some v'
    /\ LegacyTransaction.r this' = Some r'
    /\ LegacyTransaction.s this' = Some s'
    /\ LegacyTransaction.encodedData this' = Some cached
    /\ RLP.output cached
       = map (fun item => RLP.encode (RLP.Bytes item))
           (firstn 6 (unsigned_fields this))
    /\ LegacyTransaction.encodedSignature this' = Some signature
    /\ RLP.output signature
       = [ RLP.encode (RLP.Bytes (Quantity.toBuffer v'));
           RLP.encode (RLP.Bytes (Quantity.toBuffer r'));
           RLP.encode (RLP.Bytes (Quantity.toBuffer s')) ]
    /\ LegacyTransaction.serialized this' = Some bytes
    /\ bytes = RLP.digest [RLP.output cached; RLP.output signature]
                          (RLP.length cached + RLP.length signature)
    /\ bytes = RLP.encode (RLP.Items (map RLP.Bytes
                 (firstn 6 (unsigned_fields this)
                  ++ [Quantity.toBuffer v'; Quantity.toBuffer r'; Quantity.toBuffer s'])))
    /\ LegacyTransaction.hash this' = Some (Data.from (keccak bytes)).
Proof.
  intros Hsign.
  destruct (LegacyTransaction.v this) as [q|] eqn:Hv.
  { unfold LegacyTransaction.signAndHash in Hsign. rewrite Hv in Hsign.
    discriminate. }
  rewrite (signAndHash_unsigned _ _ Hv) in Hsign. cbv zeta in Hsign.
  destruct (ecsign _ privateKey _) as [sig|]; [|discriminate].
  injection Hsign as <-.
  do 6 eexists. cbn [LegacyTransaction.v LegacyTransaction.r LegacyTransaction.s
    LegacyTransaction.encodedData LegacyTransaction.encodedSignature
    LegacyTransaction.serialized LegacyTransaction.hash].
  repeat (split; [reflexivity|]).
  split; [|reflexivity].
  exact (digest_ranges_is_list_encoding
           (Quantity.toBuffer (LegacyTransaction.type this)) _ _ _ _ _ _ _ _ _).
Qed.

End SignAndHash.



Lemma signAndHash_only_once_witness :
  exists signed : LegacyTransaction.t,
    @LegacyTransaction.signAndHash Fixture.externals Fixture.privateKey Fixture.unsigned
    = (signed, Ok tt)
    /\ @LegacyTransaction.signAndHash Fixture.externals Fixture.privateKey signed
       = (signed, Err AlreadySignedError).
Proof.
  eexists. split; [reflexivity|].
  apply (proj1 (proj2 (@signAndHash_only_once Fixture.externals))
           Fixture.privateKey Fixture.unsigned).
  reflexivity.
Defined.

Lemma signAndHash_signing_hash_witness :
  LegacyTransaction.v Fixture.unsigned = None
  /\ exists signed : LegacyTransaction.t,
       @LegacyTransaction.signAndHash Fixture.externals Fixture.privateKey Fixture.unsigned
       = (signed, Ok tt)
       /\ LegacyTransaction.v signed = Some 37.
Proof.
  split; [reflexivity|].
  destruct (@signAndHash_signing_hash Fixture.externals Fixture.privateKey
              Fixture.unsigned eq_refl) as [_ Hsigned].
  destruct Hsigned as (signed & Hrun & Hv & _).
  exists signed. split; [exact Hrun | exact Hv].
Defined.

Lemma signAndHash_serialized_and_hash_witness :
  exists (signed : LegacyTransaction.t) (bytes : Buffer),
    @LegacyTransaction.signAndHash Fixture.externals Fixture.privateKey Fixture.unsigned
    = (signed, Ok tt)
    /\ LegacyTransaction.serialized signed = Some bytes
    /\ LegacyTransaction.hash signed = Some (Data.from (@keccak Fixture.externals bytes)).
Proof.
  eexists.
  destruct (@signAndHash_serialized_and_hash Fixture.externals Fixture.privateKey
              Fixture.unsigned _ eq_refl)
    as (v' & r' & s' & cached & signature & bytes & _ & _ & _ & _ & _ & _ & _
        & Hser & _ & _ & Hhash).
  exists bytes. split; [reflexivity|]. split; [exact Hser | exact Hhash].
Defined.

(** ** Construction from a database payload *)

Section Construction.
Context `{Externals}.

(** A nine-field payload whose [to] is empty or 20 bytes long and whose
    signature recovers to a sender is accepted by the constructor. *)
Lemma new_accepts (d0 d1 d2 d3 d4 d5 d6 d7 d8 : Buffer)
    (common : Common.t) (sender : Address.t) :
  let payload := [d0; d1; d2; d3; d4; d5; d6; d7; d8] in
  List.length d3 = 0%nat \/ List.length d3 = 20%nat ->
  recoverSender (Quantity.from_buffer d6) (BUFFER_EMPTY :: payload)
                (Common.chainId common) = Some sender ->
  exists tx : LegacyTransaction.t,
    LegacyTransaction.new (inl payload) common = Ok tx
    /\ LegacyTransaction.from tx = Some sender.
Proof.
  intros payload Hto Hrec.
  unfold LegacyTransaction.new, payload.
  assert (Hto' :
    (if (List.length d3 =? 0)%nat then Ok RPCQUANTITY_EMPTY
     else (a <- Address.from d3 ;; Ok (ToAddress a)))
    = Ok (if (List.length d3 =? 0)%nat then RPCQUANTITY_EMPTY else ToAddress d3)).
  { destruct Hto as [E|E]; rewrite E; [reflexivity|].
    unfold Address.from. rewrite E. reflexivity. }
  rewrite Hto'. cbn [bind].
  unfold LegacyTransaction.computeIntrinsics, computeInstrinsicsLegacyTx.
  change (Quantity.toBuffer (Quantity.from_number 0)) with BUFFER_EMPTY.
  fold payload. rewrite Hrec. cbn [bind].
  eexists. split; reflexivity.
Qed.

(** C6. A nine-field payload the constructor accepts comes back, from the
    serialized bytes of the instance, as the RLP encoding of that very
    payload; the raw array is the payload behind an empty type slot, the
    stored hash is keccak256 of those bytes, and the two cached segments
    digest to the same bytes. *)
Theorem legacy_payload_roundtrip
    (payload : LegacyDatabasePayload) (common : Common.t)
    (tx : LegacyTransaction.t) :
  List.length payload = 9%nat ->
  LegacyTransaction.new (inl payload) common = Ok tx ->
  let bytes := RLP.encode (RLP.Items (map RLP.Bytes payload)) in
  LegacyTransaction.serialized tx = Some bytes
  /\ LegacyTransaction.raw tx = Some (BUFFER_EMPTY :: payload)
  /\ LegacyTransaction.hash tx = Some (Data.from (keccak bytes))
  /\ exists cached signature : RLP.EncodedPart,
       LegacyTransaction.encodedData tx = Some cached
       /\ LegacyTransaction.encodedSignature tx = Some signature
       /\ RLP.digest [RLP.output cached; RLP.output signature]
                     (RLP.length cached + RLP.length signature) = bytes.
Proof.
  intros Hlen Hnew bytes.
  destruct payload as [|d0 [|d1 [|d2 [|d3 [|d4 [|d5 [|d6 [|d7 [|d8 [|d9 rest]]]]]]]]]];
    try discriminate Hlen.
  unfold LegacyTransaction.new in Hnew.
  destruct (if (List.length d3 =? 0)%nat then Ok RPCQUANTITY_EMPTY
            else (a <- Address.from d3 ;; Ok (ToAddress a))) as [to|e];
    [|discriminate].
  cbn [bind] in Hnew.
  unfold LegacyTransaction.computeIntrinsics, computeInstrinsicsLegacyTx in Hnew.
  destruct (recoverSender _ _ _) as [sender|]; [|discriminate].
  cbn [bind] in Hnew. injection Hnew as <-.
  cbn [LegacyTransaction.serialized LegacyTransaction.raw LegacyTransaction.hash
       LegacyTransaction.encodedData LegacyTransaction.encodedSignature
       i_serialized i_hash i_encodedData i_encodedSignature].
  repeat (split; [reflexivity|]).
  do 2 eexists. repeat (split; [reflexivity|]).
  exact (digest_ranges_is_list_encoding
           (Quantity.toBuffer (Quantity.from_number 0)) d0 d1 d2 d3 d4 d5 d6 d7 d8).
Qed.

End Construction.

Lemma legacy_payload_roundtrip_witness :
  exists tx : LegacyTransaction.t,
    @LegacyTransaction.new Fixture.externals (inl Fixture.payload) Fixture.mainnet = Ok tx
    /\ LegacyTransaction.serialized tx
       = Some (RLP.encode (RLP.Items (map RLP.Bytes Fixture.payload))).
Proof.
  eexists. split; [reflexivity|].
  apply (@legacy_payload_roundtrip Fixture.externals Fixture.payload Fixture.mainnet);
    reflexivity.
Defined.

(** ** The factory *)

(** A number below 0xC0 other than 0 and 1 names no variant. *)
Lemma typeOf_unknown (n : Z) :
  (n < 0xc0)%Z -> n <> 0%Z -> n <> 1%Z ->
  TransactionFactory.typeOf (Num n) = None.
Proof.
  intros Hn H0 H1.
  unfold TransactionFactory.typeOf, TransactionFactory.js_geb,
    TransactionFactory.js_eqb, TransactionFactory.js_is_undefined,
    TransactionFactory.UNTYPED_TX_START_BYTE,
    TransactionFactory.LEGACY_TX_TYPE_ID,
    TransactionFactory.ACCESS_LIST_TX_TYPE_ID.
  destruct (Z.leb_spec 0xc0 n); [lia|].
  destruct (Z.eqb_spec n 0); [lia|].
  destruct (Z.eqb_spec n 1); [lia|].
  reflexivity.
Qed.

Lemma typeOf_unknown_byte (b : byte) :
  2 <= Byte.to_N b < 0xc0 ->
  TransactionFactory.typeOf (Num (Z.of_N (Byte.to_N b))) = None.
Proof.
  intros Hb. apply typeOf_unknown; lia.
Qed.

Section Factory.
Context `{Externals}.

(** C9. [fromDatabaseTx] classifies a record by the first byte of its first
    element and constructs from the elements after the first. Whatever the
    rest of the first element and whatever the fields: an empty first
    element (no byte to inspect), a first byte 0x00 and a first byte from
    0xC0 up all give the legacy constructor run on the remaining elements;
    a first byte 0x01 gives the access-list constructor run on the
    remaining elements; a first byte from 0x02 to 0xBF raises the
    unsupported-type error carrying that byte. A record of an empty first
    element and nine further fields is constructed by the legacy
    constructor from exactly those nine. *)
Theorem fromDatabaseTx_dispatch :
  (forall (fields : list Buffer) (common : Common.t),
     TransactionFactory.fromDatabaseTx (BUFFER_EMPTY :: fields) common
     = (tx <- LegacyTransaction.fromTxData (inl fields) common ;;
        Ok (TransactionFactory.Legacy tx)))
  /\ (forall (b : byte) (rest : Buffer) (fields : list Buffer) (common : Common.t),
        Byte.to_N b = 0 \/ 0xc0 <= Byte.to_N b ->
        TransactionFactory.fromDatabaseTx ((b :: rest) :: fields) common
        = (tx <- LegacyTransaction.fromTxData (inl fields) common ;;
           Ok (TransactionFactory.Legacy tx)))
  /\ (forall (rest : Buffer) (fields : list Buffer) (common : Common.t),
        TransactionFactory.fromDatabaseTx ((x01 :: rest) :: fields) common
        = (tx <- external "EIP2930AccessListTransaction"%string
                   (EIP2930_fromTxData (inl fields) common) ;;
           Ok (TransactionFactory.AccessList tx)))
  /\ (forall (b : byte) (rest : Buffer) (fields : list Buffer) (common : Common.t),
        2 <= Byte.to_N b < 0xc0 ->
        TransactionFactory.fromDatabaseTx ((b :: rest) :: fields) common
        = Err (UnsupportedTransactionType (Num (Z.of_N (Byte.to_N b)))))
  /\ (forall (d0 d1 d2 d3 d4 d5 d6 d7 d8 : Buffer) (common : Common.t),
        let payload := [d0; d1; d2; d3; d4; d5; d6; d7; d8] in
        TransactionFactory.fromDatabaseTx (BUFFER_EMPTY :: payload) common
        = (tx <- LegacyTransaction.new (inl payload) common ;;
           Ok (TransactionFactory.Legacy tx))
        /\ forall t : TransactionFactory.Transaction,
             TransactionFactory.fromDatabaseTx (BUFFER_EMPTY :: payload) common = Ok t ->
             exists tx : LegacyTransaction.t,
               t = TransactionFactory.Legacy tx
               /\ LegacyTransaction.nonce tx = Quantity.from_buffer d0
               /\ LegacyTransaction.gasPrice tx = Quantity.from_buffer d1
               /\ LegacyTransaction.gas tx = Quantity.from_buffer d2
               /\ Recipient_toBuffer (LegacyTransaction.to tx) = d3
               /\ LegacyTransaction.value tx = Quantity.from_buffer d4
               /\ LegacyTransaction.data tx = Data.from d5
               /\ LegacyTransaction.v tx = Some (Quantity.from_buffer d6)
               /\ LegacyTransaction.r tx = Some (Quantity.from_buffer d7)
               /\ LegacyTransaction.s tx = Some (Quantity.from_buffer d8)
               /\ LegacyTransaction.raw tx = Some (BUFFER_EMPTY :: payload)).
Proof.
  split; [reflexivity|].
  split; [|split; [reflexivity|split]].
  - intros b rest fields common Hb.
    unfold TransactionFactory.fromDatabaseTx. cbn [first_byte slice1 skipn].
    destruct Hb as [Hzero|Hlist].
    + rewrite Hzero. reflexivity.
    + rewrite typeOf_list_prefix
        by (change 0xc0%Z with (Z.of_N 0xc0); lia).
      reflexivity.
  - intros b rest fields common Hb.
    unfold TransactionFactory.fromDatabaseTx. cbn [first_byte].
    now rewrite (typeOf_unknown_byte b Hb).
  - intros d0 d1 d2 d3 d4 d5 d6 d7 d8 common payload.
    split; [reflexivity|].
    intros t Ht.
    change (TransactionFactory.fromDatabaseTx (BUFFER_EMPTY :: payload) common)
      with (tx <- LegacyTransaction.new (inl payload) common ;;
            Ok (TransactionFactory.Legacy tx)) in Ht.
    destruct (LegacyTransaction.new (inl payload) common) as [tx|e] eqn:Hnew;
      [|discriminate].
    cbn [bind] in Ht. injection Ht as <-.
    exists tx. split; [reflexivity|].
    unfold LegacyTransaction.new, payload in Hnew.
    destruct (Nat.eqb_spec (List.length d3) 0) as [E|E].
    + cbn [bind] in Hnew.
      destruct (LegacyTransaction.computeIntrinsics _ _ _); [|discriminate].
      cbn [bind] in Hnew. injection Hnew as <-.
      cbn. repeat split.
      destruct d3; [reflexivity | discriminate E].
    + unfold Address.from in Hnew.
      destruct (List.length d3 =? 20)%nat; [|discriminate].
      cbn [bind] in Hnew.
      destruct (LegacyTransaction.computeIntrinsics _ _ _); [|discriminate].
      cbn [bind] in Hnew. injection Hnew as <-.
      cbn. repeat split.
Qed.

(** X1. [fromString] on bytes that start an RLP list (first byte >= 0xC0):
    nothing is stripped, the whole byte sequence is decoded. *)
Lemma fromString_untyped_not_stripped
    (txData : string) (b : byte) (rest : Buffer) (common : Common.t) :
  Data.from_string txData = Ok (b :: rest) ->
  0xc0 <= Byte.to_N b ->
  TransactionFactory.fromString txData common
  = (raw <- external "decode"%string (decode (b :: rest)) ;;
     tx <- LegacyTransaction.fromTxData (inl raw) common ;;
     Ok (TransactionFactory.Legacy tx)).
Proof.
  intros Hdata Hb.
  unfold TransactionFactory.fromString. rewrite Hdata. cbn [bind].
  unfold Data.toBuffer. cbn [first_byte].
  rewrite typeOf_list_prefix by (change 0xc0%Z with (Z.of_N 0xc0); lia).
  reflexivity.
Qed.

(** C1, first half, as the code has it. On bytes whose first byte is an
    explicit 0x00 type byte, [fromString] strips nothing: the byte read is
    the number 0, not [undefined], so the strip is skipped and the decoder
    receives the whole sequence, the 0x00 included. *)
Theorem fromString_zero_type_byte_kept
    (txData : string) (rest : Buffer) (common : Common.t) :
  Data.from_string txData = Ok (x00 :: rest) ->
  TransactionFactory.fromString txData common
  = (raw <- external "decode"%string (decode (x00 :: rest)) ;;
     tx <- LegacyTransaction.fromTxData (inl raw) common ;;
     Ok (TransactionFactory.Legacy tx)).
Proof.
  intros Hdata.
  unfold TransactionFactory.fromString. rewrite Hdata. reflexivity.
Qed.

End Factory.

Lemma fromString_zero_type_byte_kept_witness :
  Data.from_string Fixture.wire_with_type_byte
    = Ok (x00 :: RLP.encode (RLP.Items (map RLP.Bytes Fixture.payload)))
  /\ @TransactionFactory.fromString Fixture.externals
       Fixture.wire_with_type_byte Fixture.mainnet
     = Err (ExternalError "decode"%string)
  /\ exists tx : LegacyTransaction.t,
       @TransactionFactory.fromString Fixture.externals Fixture.wire Fixture.mainnet
       = Ok (TransactionFactory.Legacy tx).
Proof.
  split; [reflexivity|]. split.
  - rewrite (@fromString_zero_type_byte_kept Fixture.externals
               Fixture.wire_with_type_byte
               (RLP.encode (RLP.Items (map RLP.Bytes Fixture.payload)))
               Fixture.mainnet eq_refl).
    reflexivity.
  - eexists. reflexivity.
Defined.

Lemma fromDatabaseTx_dispatch_witness :
  (exists tx : LegacyTransaction.t,
     @TransactionFactory.fromDatabaseTx Fixture.externals
       (BUFFER_EMPTY :: Fixture.payload) Fixture.mainnet
     = Ok (TransactionFactory.Legacy tx)
     /\ LegacyTransaction.raw tx = Some (BUFFER_EMPTY :: Fixture.payload))
  /\ (exists tx : LegacyTransaction.t,
        @TransactionFactory.fromDatabaseTx Fixture.externals
          ([xf8; x01] :: Fixture.payload) Fixture.mainnet
        = Ok (TransactionFactory.Legacy tx))
  /\ @TransactionFactory.fromDatabaseTx Fixture.externals
       ([x01; x02] :: Fixture.payload) Fixture.mainnet
     = Ok (TransactionFactory.AccessList
             (AccessListFromPayload Fixture.payload Fixture.mainnet))
  /\ @TransactionFactory.fromDatabaseTx Fixture.externals
       ([x02; x01] :: Fixture.payload) Fixture.mainnet
     = Err (UnsupportedTransactionType (Num 2)).
Proof.
  destruct (@fromDatabaseTx_dispatch Fixture.externals)
    as (_ & Hlegacy & Haccess & Hunknown & Hnine).
  split; [|split; [|split]].
  - destruct (Hnine [] [] [] [] [] [] [x1b] [x01] [x01] Fixture.mainnet)
      as [_ Hfields].
    destruct (Hfields _ eq_refl)
      as (tx & Htx & _ & _ & _ & _ & _ & _ & _ & _ & _ & Hraw).
    exists tx. split; [|exact Hraw].
    injection Htx as <-. reflexivity.
  - eexists.
    rewrite (Hlegacy xf8 [x01] Fixture.payload Fixture.mainnet)
      by (right; vm_compute; discriminate).
    reflexivity.
  - rewrite (Haccess [x02] Fixture.payload Fixture.mainnet). reflexivity.
  - apply (Hunknown x02 [x01] Fixture.payload Fixture.mainnet).
    vm_compute. split; [discriminate | reflexivity].
Defined.

(** * Further properties of the factory *)

Section FactoryEdges.
Context `{Externals}.

(** The legacy constructor fails in three ways only. *)
Lemma new_error_kinds
    (data : LegacyDatabasePayload + TypedRpcTransaction) (common : Common.t)
    (e : Error) :
  LegacyTransaction.new data common = Err e ->
  e = TypeError \/ e = MalformedAddressError \/ e = InvalidSignatureError.
Proof.
  unfold LegacyTransaction.new. destruct data as [payload|rpc]; [|discriminate].
  destruct payload as [|d0 [|d1 [|d2 [|d3 [|d4 [|d5 [|d6 [|d7 [|d8 rest]]]]]]]]];
    try (intros [= <-]; now left).
  destruct (List.length d3 =? 0)%nat.
  - cbn [bind].
    unfold LegacyTransaction.computeIntrinsics, computeInstrinsicsLegacyTx.
    destruct (recoverSender _ _ _); cbn [bind]; [discriminate|].
    intros [= <-]. now right; right.
  - unfold Address.from. destruct (List.length d3 =? 20)%nat; cbn [bind].
    + unfold LegacyTransaction.computeIntrinsics, computeInstrinsicsLegacyTx.
      destruct (recoverSender _ _ _); cbn [bind]; [discriminate|].
      intros [= <-]. now right; right.
    + intros [= <-]. now right; left.
Qed.

(** X2. An access-list envelope: on bytes whose first byte is 0x01,
    [fromString] strips exactly that byte, decodes the rest and hands the
    decoded payload to the access-list constructor. *)
Theorem fromString_access_list_strips_type_byte
    (txData : string) (rest : Buffer) (common : Common.t) :
  Data.from_string txData = Ok (x01 :: rest) ->
  TransactionFactory.fromString txData common
  = (raw <- external "decode"%string (decode rest) ;;
     tx <- external "EIP2930AccessListTransaction"%string
             (EIP2930_fromTxData (inl raw) common) ;;
     Ok (TransactionFactory.AccessList tx)).
Proof.
  intros Hdata.
  unfold TransactionFactory.fromString. rewrite Hdata. reflexivity.
Qed.

(** X3. An envelope of any other type: on bytes whose first byte is from
    0x02 to 0xBF, [fromString] raises the unsupported-type error carrying
    that byte, whatever the decoder or the constructors would do. *)
Theorem fromString_unsupported_type
    (txData : string) (b : byte) (rest : Buffer) (common : Common.t) :
  Data.from_string txData = Ok (b :: rest) ->
  2 <= Byte.to_N b < 0xc0 ->
  TransactionFactory.fromString txData common
  = Err (UnsupportedTransactionType (Num (Z.of_N (Byte.to_N b)))).
Proof.
  intros Hdata Hb.
  unfold TransactionFactory.fromString. rewrite Hdata. cbn [bind].
  unfold Data.toBuffer. cbn [first_byte].
  now rewrite (typeOf_unknown_byte b Hb).
Qed.

(** X4. No bytes at all: the byte read is [undefined], the input is
    classified Legacy, and the decoder is handed the empty buffer. *)
Theorem fromString_empty (txData : string) (common : Common.t) :
  Data.from_string txData = Ok [] ->
  TransactionFactory.fromString txData common
  = (raw <- external "decode"%string (decode []) ;;
     tx <- LegacyTransaction.fromTxData (inl raw) common ;;
     Ok (TransactionFactory.Legacy tx)).
Proof.
  intros Hdata.
  unfold TransactionFactory.fromString. rewrite Hdata. reflexivity.
Qed.

(** X5. [fromDatabaseTx] raises a type error on a record with no element,
    and the unsupported-type error, carrying the byte, on a record whose
    first element starts with a byte from 0x02 to 0xBF; no constructor
    runs. *)
Theorem fromDatabaseTx_rejects :
  (forall common : Common.t,
     TransactionFactory.fromDatabaseTx [] common = Err TypeError)
  /\ (forall (b : byte) (rest : Buffer) (fields : list Buffer) (common : Common.t),
        2 <= Byte.to_N b < 0xc0 ->
        TransactionFactory.fromDatabaseTx ((b :: rest) :: fields) common
        = Err (UnsupportedTransactionType (Num (Z.of_N (Byte.to_N b))))).
Proof.
  split; [reflexivity|].
  intros b rest fields common Hb.
  unfold TransactionFactory.fromDatabaseTx. cbn [first_byte].
  now rewrite (typeOf_unknown_byte b Hb).
Qed.

(** X6. Off the nine-element shortcut, [typeOfRaw] and [fromDatabaseTx]
    read the same byte: [typeOfRaw] raises exactly on the empty array, and
    it finds no variant exactly when [fromDatabaseTx] raises the
    unsupported-type error. *)
Theorem typeOfRaw_agrees_with_fromDatabaseTx
    (raw : TypedDatabaseTransaction) (common : Common.t) :
  List.length raw <> 9%nat ->
  (TransactionFactory.typeOfRaw raw = Err TypeError <-> raw = [])
  /\ (TransactionFactory.typeOfRaw raw = Ok None
      <-> exists type : js_number,
            TransactionFactory.fromDatabaseTx raw common
            = Err (UnsupportedTransactionType type)).
Proof.
  intros Hlen.
  unfold TransactionFactory.typeOfRaw.
  destruct (Nat.eqb_spec (List.length raw) 9) as [E|_]; [contradiction|].
  destruct raw as [|marker fields].
  - split; [now split|].
    split; [discriminate|]. intros [type Htype]. discriminate.
  - split; [split; discriminate|].
    unfold TransactionFactory.fromDatabaseTx. cbn [slice1 skipn].
    destruct (TransactionFactory.typeOf (first_byte marker)) as [[|]|].
    + split; [discriminate|]. intros [type Htype].
      unfold LegacyTransaction.fromTxData in Htype.
      destruct (LegacyTransaction.new (inl fields) common) as [tx|e] eqn:Hnew;
        [discriminate|].
      cbn [bind] in Htype. injection Htype as ->.
      apply new_error_kinds in Hnew.
      destruct Hnew as [|[|]]; discriminate.
    + split; [discriminate|]. intros [type Htype].
      destruct (EIP2930_fromTxData (inl fields) common); discriminate.
    + split; [|reflexivity]. intros _. eexists. reflexivity.
Qed.

(** X7. The nine-element shortcut of [typeOfRaw] reads nothing: any array
    of nine elements is Legacy, also one whose first element starts with a
    byte from 0x02 to 0xBF, which [fromDatabaseTx] refuses as
    unsupported. *)
Theorem typeOfRaw_nine_elements_shortcut
    (raw : TypedDatabaseTransaction) :
  List.length raw = 9%nat ->
  TransactionFactory.typeOfRaw raw
    = Ok (Some TransactionFactory.LegacyTransactionClass)
  /\ forall (b : byte) (rest : Buffer) (fields : list Buffer) (common : Common.t),
       raw = (b :: rest) :: fields ->
       2 <= Byte.to_N b < 0xc0 ->
       TransactionFactory.fromDatabaseTx raw common
       = Err (UnsupportedTransactionType (Num (Z.of_N (Byte.to_N b)))).
Proof.
  intros Hlen. split.
  - unfold TransactionFactory.typeOfRaw. now rewrite Hlen.
  - intros b rest fields common -> Hb.
    unfold TransactionFactory.fromDatabaseTx. cbn [first_byte].
    now rewrite (typeOf_unknown_byte b Hb).
Qed.

(** X8. [fromRpc] goes by [parseInt] of the type field. No type field
    gives a Legacy instance with no signature and nothing derived, its gas
    price the one of the object. A type that parses to 0 or to 0xC0 and
    above is Legacy as well; 1 goes to the access-list constructor; any
    other number, and a type that does not parse, raises the error carrying
    the type as it was supplied. *)
Theorem fromRpc_dispatch (txData : TypedRpcTransaction) (common : Common.t) :
  (rpc_type txData = None ->
   exists tx : LegacyTransaction.t,
     TransactionFactory.fromRpc txData common = Ok (TransactionFactory.Legacy tx)
     /\ unsigned_state tx
     /\ LegacyTransaction.from tx = None
     /\ LegacyTransaction.gasPrice tx = rpc_gasPrice txData)
  /\ (forall (type : string) (n : Z),
        rpc_type txData = Some type -> parseInt type = Num n ->
        (n = 0 \/ 0xc0 <= n)%Z ->
        exists tx : LegacyTransaction.t,
          TransactionFactory.fromRpc txData common = Ok (TransactionFactory.Legacy tx)
          /\ unsigned_state tx)
  /\ (forall type : string,
        rpc_type txData = Some type -> parseInt type = Num 1 ->
        TransactionFactory.fromRpc txData common
        = (tx <- external "EIP2930AccessListTransaction"%string
                   (EIP2930_fromTxData (inr txData) common) ;;
           Ok (TransactionFactory.AccessList tx)))
  /\ (forall type : string,
        rpc_type txData = Some type ->
        (parseInt type = NaN
         \/ exists n : Z, parseInt type = Num n /\ (n < 0xc0 /\ n <> 0 /\ n <> 1)%Z) ->
        TransactionFactory.fromRpc txData common
        = Err (UnsupportedRpcType (Some type))).
Proof.
  unfold TransactionFactory.fromRpc, TransactionFactory.typeOfRPC.
  repeat split.
  - intros Htype. rewrite Htype. cbn. eexists. split; [reflexivity|].
    repeat split.
  - intros type n Htype Hparse Hn. rewrite Htype, Hparse.
    assert (Hlegacy : TransactionFactory.typeOf (Num n)
                      = Some TransactionFactory.LegacyTransactionClass).
    { destruct Hn as [->|Hn]; [reflexivity | now apply typeOf_list_prefix]. }
    rewrite Hlegacy. cbn. eexists. split; [reflexivity|]. repeat split.
  - intros type Htype Hparse. rewrite Htype, Hparse. reflexivity.
  - intros type Htype [Hparse|(n & Hparse & Hn & H0 & H1)];
      rewrite Htype, Hparse; [reflexivity|].
    now rewrite typeOf_unknown.
Qed.

End FactoryEdges.

Lemma fromString_untyped_not_stripped_witness :
  exists tx : LegacyTransaction.t,
    @TransactionFactory.fromString Fixture.externals Fixture.wire Fixture.mainnet
    = Ok (TransactionFactory.Legacy tx)
    /\ LegacyTransaction.raw tx = Some (BUFFER_EMPTY :: Fixture.payload).
Proof.
  eexists. split.
  - rewrite (@fromString_untyped_not_stripped Fixture.externals Fixture.wire
               xc9 [x80; x80; x80; x80; x80; x80; x1b; x01; x01] Fixture.mainnet
               eq_refl).
    + reflexivity.
    + discriminate.
  - reflexivity.
Defined.

Lemma fromString_access_list_strips_type_byte_witness :
  @TransactionFactory.fromString Fixture.externals
    Fixture.wire_access_list Fixture.mainnet
  = Ok (TransactionFactory.AccessList (AccessListFromPayload [] Fixture.mainnet)).
Proof.
  rewrite (@fromString_access_list_strips_type_byte Fixture.externals
             Fixture.wire_access_list [xc0] Fixture.mainnet eq_refl).
  reflexivity.
Defined.

Lemma fromString_unsupported_type_witness :
  @TransactionFactory.fromString Fixture.externals
    Fixture.wire_unknown_type Fixture.mainnet
  = Err (UnsupportedTransactionType (Num 2)).
Proof.
  apply (@fromString_unsupported_type Fixture.externals
           Fixture.wire_unknown_type x02 [xc0] Fixture.mainnet eq_refl).
  vm_compute. split; [discriminate | reflexivity].
Defined.

Lemma fromString_empty_witness :
  @TransactionFactory.fromString Fixture.externals "0x" Fixture.mainnet
  = Err (ExternalError "decode"%string).
Proof.
  rewrite (@fromString_empty Fixture.externals "0x" Fixture.mainnet eq_refl).
  reflexivity.
Defined.

Lemma fromDatabaseTx_rejects_witness :
  @TransactionFactory.fromDatabaseTx Fixture.externals
    ([x02] :: Fixture.payload) Fixture.mainnet
  = Err (UnsupportedTransactionType (Num 2)).
Proof.
  apply (proj2 (@fromDatabaseTx_rejects Fixture.externals)).
  vm_compute. split; [discriminate | reflexivity].
Defined.

Lemma typeOfRaw_agrees_with_fromDatabaseTx_witness :
  TransactionFactory.typeOfRaw ([x02] :: Fixture.payload) = Ok None
  /\ exists type : js_number,
       @TransactionFactory.fromDatabaseTx Fixture.externals
         ([x02] :: Fixture.payload) Fixture.mainnet
       = Err (UnsupportedTransactionType type).
Proof.
  split; [reflexivity|].
  apply (@typeOfRaw_agrees_with_fromDatabaseTx Fixture.externals
           ([x02] :: Fixture.payload) Fixture.mainnet).
  - discriminate.
  - reflexivity.
Defined.

Lemma typeOfRaw_nine_elements_shortcut_witness :
  TransactionFactory.typeOfRaw ([x02] :: tl Fixture.payload)
    = Ok (Some TransactionFactory.LegacyTransactionClass)
  /\ @TransactionFactory.fromDatabaseTx Fixture.externals
       ([x02] :: tl Fixture.payload) Fixture.mainnet
     = Err (UnsupportedTransactionType (Num 2)).
Proof.
  destruct (@typeOfRaw_nine_elements_shortcut Fixture.externals
              ([x02] :: tl Fixture.payload) eq_refl)
    as [Hraw Hdb].
  split; [exact Hraw|].
  apply (Hdb x02 [] (tl Fixture.payload) Fixture.mainnet eq_refl).
  vm_compute. split; [discriminate | reflexivity].
Defined.

Lemma fromRpc_dispatch_witness :
  (exists tx : LegacyTransaction.t,
     @TransactionFactory.fromRpc Fixture.externals (Fixture.rpc None) Fixture.mainnet
     = Ok (TransactionFactory.Legacy tx)
     /\ LegacyTransaction.v tx = None)
  /\ @TransactionFactory.fromRpc Fixture.externals
       (Fixture.rpc (Some "0x05"%string)) Fixture.mainnet
     = Err (UnsupportedRpcType (Some "0x05"%string)).
Proof.
  split.
  - destruct (proj1 (@fromRpc_dispatch Fixture.externals (Fixture.rpc None)
                       Fixture.mainnet) eq_refl)
      as (tx & Hrpc & (Hv & _) & _).
    exists tx. split; [exact Hrpc | exact Hv].
  - apply (proj2 (proj2 (proj2 (@fromRpc_dispatch Fixture.externals
                                  (Fixture.rpc (Some "0x05"%string))
                                  Fixture.mainnet)))
             "0x05"%string eq_refl).
    right. exists 5%Z. split; [reflexivity|]. repeat split; discriminate.
Defined.

(** * Further properties of the legacy transaction *)

Section InstanceProperties.
Context `{Externals}.

(** X9. The execution view reports the instance as it is: nonce, gas price,
    gas limit and value are the instance's quantities read back from their
    bytes, the data and the sender are the instance's, the base fee is the
    intrinsic gas, and the recipient is null exactly when the recipient's
    bytes are empty. *)
Theorem toVmTransaction_fields
    (this : LegacyTransaction.t) (vm : LegacyTransaction.VmTransaction) :
  LegacyTransaction.toVmTransaction this = Ok vm ->
  LegacyTransaction.vm_nonce vm = LegacyTransaction.nonce this
  /\ LegacyTransaction.vm_gasPrice vm = LegacyTransaction.gasPrice this
  /\ LegacyTransaction.vm_gasLimit vm = LegacyTransaction.gas this
  /\ LegacyTransaction.vm_value vm = LegacyTransaction.value this
  /\ LegacyTransaction.vm_data vm = Data.toBuffer (LegacyTransaction.data this)
  /\ LegacyTransaction.from this
     = Some (LegacyTransaction.buf (LegacyTransaction.getSenderAddress vm tt))
  /\ LegacyTransaction.getBaseFee vm tt
     = calculateIntrinsicGas (LegacyTransaction.data this) (LegacyTransaction.to this)
  /\ (LegacyTransaction.vm_to vm = None
      <-> Recipient_toBuffer (LegacyTransaction.to this) = [])
  /\ (forall a : LegacyTransaction.VmAddress,
        LegacyTransaction.vm_to vm = Some a ->
        LegacyTransaction.buf a = Recipient_toBuffer (LegacyTransaction.to this)).
Proof.
  unfold LegacyTransaction.toVmTransaction.
  destruct (LegacyTransaction.from this) as [sender|]; [|discriminate].
  intros [= <-].
  cbn [LegacyTransaction.vm_nonce LegacyTransaction.vm_gasPrice
       LegacyTransaction.vm_gasLimit LegacyTransaction.vm_value
       LegacyTransaction.vm_data LegacyTransaction.getSenderAddress
       LegacyTransaction.getBaseFee LegacyTransaction.vm_to
       LegacyTransaction.buf].
  unfold BN_of_buffer, Quantity.toBuffer, Quantity.from_bigint, Address.toBuffer.
  rewrite !buffer_to_N_to_buffer.
  repeat (split; [reflexivity|]).
  destruct (Recipient_toBuffer (LegacyTransaction.to this)) as [|b bs].
  - split; [now split|]. intros a Ha. discriminate.
  - split; [split; discriminate|]. intros a [= <-]. reflexivity.
Qed.

(** X10. [signAndHash] touches the signature and what is computed from it,
    nothing else: chain context, type, nonce, gas price, gas, recipient,
    value, data and the sender are as before the call, so the sender is
    never derived by signing; and a call that does not succeed leaves the
    whole instance as it was. *)
Theorem signAndHash_frame (privateKey : Buffer) (this : LegacyTransaction.t) :
  let this' := fst (LegacyTransaction.signAndHash privateKey this) in
  LegacyTransaction.common this' = LegacyTransaction.common this
  /\ LegacyTransaction.type this' = LegacyTransaction.type this
  /\ LegacyTransaction.nonce this' = LegacyTransaction.nonce this
  /\ LegacyTransaction.gasPrice this' = LegacyTransaction.gasPrice this
  /\ LegacyTransaction.gas this' = LegacyTransaction.gas this
  /\ LegacyTransaction.to this' = LegacyTransaction.to this
  /\ LegacyTransaction.value this' = LegacyTransaction.value this
  /\ LegacyTransaction.data this' = LegacyTransaction.data this
  /\ LegacyTransaction.from this' = LegacyTransaction.from this
  /\ (snd (LegacyTransaction.signAndHash privateKey this) <> Ok tt -> this' = this).
Proof.
  destruct (LegacyTransaction.v this) as [q|] eqn:Hv.
  - unfold LegacyTransaction.signAndHash. rewrite Hv. cbn. repeat split.
  - rewrite (signAndHash_unsigned _ _ Hv). cbv zeta.
    destruct (ecsign _ privateKey _) as [sig|]; cbn [fst snd].
    + repeat split. intros Hfail. now contradiction Hfail.
    + repeat split.
Qed.

(** X11. After a successful [signAndHash] the stored raw array is the
    ten-slot array of the instance's own fields with the new v, r and s in
    the last three slots, and the serialized bytes are the RLP encoding of
    the list of that array without its first slot. *)
Theorem signAndHash_raw
    (privateKey : Buffer) (this this' : LegacyTransaction.t) :
  LegacyTransaction.signAndHash privateKey this = (this', Ok tt) ->
  exists (v' r' s' : Quantity.t) (raw : LegacyDatabaseTx),
    LegacyTransaction.v this' = Some v'
    /\ LegacyTransaction.r this' = Some r'
    /\ LegacyTransaction.s this' = Some s'
    /\ LegacyTransaction.raw this' = Some raw
    /\ raw = LegacyTransaction.toEthRawTransaction this'
               (Quantity.toBuffer v') (Quantity.toBuffer r') (Quantity.toBuffer s')
    /\ List.length raw = 10%nat
    /\ LegacyTransaction.serialized this'
       = Some (RLP.encode (RLP.Items (map RLP.Bytes (slice1 raw)))).
Proof.
  intros Hsign.
  destruct (LegacyTransaction.v this) as [q|] eqn:Hv.
  { unfold LegacyTransaction.signAndHash in Hsign. rewrite Hv in Hsign.
    discriminate. }
  rewrite (signAndHash_unsigned _ _ Hv) in Hsign. cbv zeta in Hsign.
  destruct (ecsign _ privateKey _) as [sig|]; [|discriminate].
  injection Hsign as <-.
  do 4 eexists.
  cbn [LegacyTransaction.v LegacyTransaction.r LegacyTransaction.s
       LegacyTransaction.raw LegacyTransaction.serialized].
  repeat (split; [reflexivity|]).
  f_equal.
  exact (digest_ranges_is_list_encoding
           (Quantity.toBuffer (LegacyTransaction.type this)) _ _ _ _ _ _ _ _ _).
Qed.

(** The serialized bytes of an instance built from a nine-field payload. *)
Lemma new_serialized
    (payload : LegacyDatabasePayload) (common : Common.t)
    (tx : LegacyTransaction.t) :
  List.length payload = 9%nat ->
  LegacyTransaction.new (inl payload) common = Ok tx ->
  LegacyTransaction.serialized tx
  = Some (RLP.encode (RLP.Items (map RLP.Bytes payload))).
Proof.
  intros Hlen Hnew.
  destruct payload as [|d0 [|d1 [|d2 [|d3 [|d4 [|d5 [|d6 [|d7 [|d8 [|d9 rest]]]]]]]]]];
    try discriminate Hlen.
  unfold LegacyTransaction.new in Hnew.
  destruct (if (List.length d3 =? 0)%nat then Ok RPCQUANTITY_EMPTY
            else (a <- Address.from d3 ;; Ok (ToAddress a))) as [to|e];
    [|discriminate].
  cbn [bind] in Hnew.
  unfold LegacyTransaction.computeIntrinsics, computeInstrinsicsLegacyTx in Hnew.
  destruct (recoverSender _ _ _) as [sender|]; [|discriminate].
  cbn [bind] in Hnew. injection Hnew as <-. reflexivity.
Qed.

(** X12. Signing and reading back. When an instance of type 0, with an
    empty or 20-byte recipient, is signed and the raw array it then stores
    is given to [fromDatabaseTx], the instance constructed is the signed
    instance itself, field for field, with the recovered sender in place of
    the sender; the serialized bytes and the hash are the same. *)
Theorem sign_then_reload
    (privateKey : Buffer) (this signed : LegacyTransaction.t)
    (raw : LegacyDatabaseTx) (v' : Quantity.t) (sender : Address.t) :
  LegacyTransaction.type this = 0 ->
  recipient_ok (LegacyTransaction.to this) ->
  LegacyTransaction.signAndHash privateKey this = (signed, Ok tt) ->
  LegacyTransaction.raw signed = Some raw ->
  LegacyTransaction.v signed = Some v' ->
  recoverSender v' raw (Common.chainId (LegacyTransaction.common this)) = Some sender ->
  TransactionFactory.fromDatabaseTx raw (LegacyTransaction.common this)
  = Ok (TransactionFactory.Legacy (with_from sender signed)).
Proof.
  intros Htype Hto Hsign Hraw Hv' Hrec.
  destruct (LegacyTransaction.v this) as [q|] eqn:Hv.
  { unfold LegacyTransaction.signAndHash in Hsign. rewrite Hv in Hsign.
    discriminate. }
  rewrite (signAndHash_unsigned _ _ Hv) in Hsign. cbv zeta in Hsign.
  destruct (ecsign _ privateKey _) as [sig|]; [|discriminate].
  injection Hsign as <-.
  cbn [LegacyTransaction.raw LegacyTransaction.v] in Hraw, Hv'.
  injection Hraw as <-. injection Hv' as <-.
  unfold LegacyTransaction.toEthRawTransaction in *.
  rewrite Htype in *.
  change (Quantity.toBuffer 0) with BUFFER_EMPTY in *.
  unfold TransactionFactory.fromDatabaseTx.
  cbn [first_byte BUFFER_EMPTY slice1 skipn].
  change (TransactionFactory.typeOf undefined)
    with (Some TransactionFactory.LegacyTransactionClass).
  cbv iota beta.
  unfold LegacyTransaction.fromTxData, LegacyTransaction.new.
  assert (Hrecipient :
    (if (List.length (Recipient_toBuffer (LegacyTransaction.to this)) =? 0)%nat
     then Ok RPCQUANTITY_EMPTY
     else (a <- Address.from (Recipient_toBuffer (LegacyTransaction.to this)) ;;
           Ok (ToAddress a)))
    = Ok (LegacyTransaction.to this)).
  { destruct (LegacyTransaction.to this) as [|a]; [reflexivity|].
    cbn [Recipient_toBuffer Address.toBuffer recipient_ok] in *.
    unfold Address.toBuffer, Address.from. rewrite Hto. reflexivity. }
  rewrite Hrecipient. cbn [bind].
  unfold LegacyTransaction.computeIntrinsics, computeInstrinsicsLegacyTx.
  change (Quantity.toBuffer (Quantity.from_number 0)) with BUFFER_EMPTY.
  unfold Quantity.from_buffer, Quantity.toBuffer, Quantity.from_number in *.
  rewrite !buffer_to_N_to_buffer.
  rewrite Hrec. cbn [bind].
  unfold with_from.
  cbn [LegacyTransaction.common LegacyTransaction.type LegacyTransaction.nonce
       LegacyTransaction.gasPrice LegacyTransaction.gas LegacyTransaction.to
       LegacyTransaction.value LegacyTransaction.data LegacyTransaction.v
       LegacyTransaction.r LegacyTransaction.s LegacyTransaction.raw
       LegacyTransaction.serialized LegacyTransaction.hash
       LegacyTransaction.encodedData LegacyTransaction.encodedSignature
       i_from i_serialized i_hash i_encodedData i_encodedSignature].
  pose proof (digest_ranges_is_list_encoding BUFFER_EMPTY
    (N_to_buffer (LegacyTransaction.nonce this))
    (N_to_buffer (LegacyTransaction.gasPrice this))
    (N_to_buffer (LegacyTransaction.gas this))
    (Recipient_toBuffer (LegacyTransaction.to this))
    (N_to_buffer (LegacyTransaction.value this))
    (Data.toBuffer (LegacyTransaction.data this))
    (N_to_buffer (sig_v sig))
    (N_to_buffer (buffer_to_N (sig_r sig)))
    (N_to_buffer (buffer_to_N (sig_s sig)))) as Hdigest.
  cbv zeta in Hdigest.
  cbn [slice1 skipn]. rewrite <- Hdigest.
  reflexivity.
Qed.

End InstanceProperties.

Section ReachProperties.
Context `{Externals}.

(** X13. No partial state. Every instance a constructor returned, after any
    number of [signAndHash] calls, failed or not, has type 0 and is in one
    of two states: nothing of a signature stored (no v, r, s, raw,
    serialized bytes, hash or cached encodings), or all of them stored with
    the hash being keccak256 of the serialized bytes. *)
Theorem reachable_consistent (tx : LegacyTransaction.t) :
  reachable tx ->
  LegacyTransaction.type tx = 0 /\ (unsigned_state tx \/ signed_state tx).
Proof.
  induction 1 as [data common tx Hnew | privateKey tx Hreach [Htype Hstate]].
  - unfold LegacyTransaction.new in Hnew. destruct data as [payload|rpc].
    + destruct payload
        as [|d0 [|d1 [|d2 [|d3 [|d4 [|d5 [|d6 [|d7 [|d8 rest]]]]]]]]];
        try discriminate Hnew.
      destruct (if (List.length d3 =? 0)%nat then Ok RPCQUANTITY_EMPTY
                else (a <- Address.from d3 ;; Ok (ToAddress a))) as [to|e];
        [|discriminate].
      cbn [bind] in Hnew.
      unfold LegacyTransaction.computeIntrinsics, computeInstrinsicsLegacyTx in Hnew.
      destruct (recoverSender _ _ _) as [sender|]; [|discriminate].
      cbn [bind] in Hnew. injection Hnew as <-.
      split; [reflexivity|]. right.
      do 7 eexists. cbn. repeat split.
    + injection Hnew as <-. split; [reflexivity|].
      left. repeat split.
  - destruct (LegacyTransaction.v tx) as [q|] eqn:Hv.
    + unfold LegacyTransaction.signAndHash. rewrite Hv. cbn [fst].
      now split.
    + rewrite (signAndHash_unsigned _ _ Hv). cbv zeta.
      destruct (ecsign _ privateKey _) as [sig|]; cbn [fst].
      * split; [exact Htype|]. right.
        do 7 eexists. cbn. repeat split.
      * now split.
Qed.

(** X14. For an instance built from a database payload the execution view
    exists, and the display form and the execution view agree on contract
    creation: the recipient is null in the one exactly when it is null in
    the other, which is exactly when the payload's [to] field is empty; the
    sender they show is the same. *)
Theorem contract_creation_agreement
    (payload : LegacyDatabasePayload) (common : Common.t)
    (tx : LegacyTransaction.t) :
  LegacyTransaction.new (inl payload) common = Ok tx ->
  exists vm : LegacyTransaction.VmTransaction,
    LegacyTransaction.toVmTransaction tx = Ok vm
    /\ (LegacyTransaction.json_to (LegacyTransaction.toJSON tx) = None
        <-> LegacyTransaction.vm_to vm = None)
    /\ (LegacyTransaction.vm_to vm = None <-> nth 3 payload [] = [])
    /\ LegacyTransaction.json_from (LegacyTransaction.toJSON tx)
       = Some (LegacyTransaction.buf (LegacyTransaction.getSenderAddress vm tt)).
Proof.
  intros Hnew. unfold LegacyTransaction.new in Hnew.
  destruct payload as [|d0 [|d1 [|d2 [|d3 [|d4 [|d5 [|d6 [|d7 [|d8 rest]]]]]]]]];
    try discriminate Hnew.
  cbn [nth].
  destruct d3 as [|b d3].
  - cbn [List.length Nat.eqb bind] in Hnew.
    unfold LegacyTransaction.computeIntrinsics, computeInstrinsicsLegacyTx in Hnew.
    destruct (recoverSender _ _ _) as [sender|]; [|discriminate].
    cbn [bind] in Hnew. injection Hnew as <-.
    eexists. split; [reflexivity|]. cbn. repeat split.
  - cbn [List.length Nat.eqb] in Hnew. unfold Address.from in Hnew.
    destruct (List.length (b :: d3) =? 20)%nat; [|discriminate].
    cbn [bind] in Hnew.
    unfold LegacyTransaction.computeIntrinsics, computeInstrinsicsLegacyTx in Hnew.
    destruct (recoverSender _ _ _) as [sender|]; [|discriminate].
    cbn [bind] in Hnew. injection Hnew as <-.
    eexists. split; [reflexivity|]. cbn.
    repeat split; discriminate.
Qed.

(** X15. Wire round trip. When the wire bytes start an RLP list, the
    decoder returns the nine-field payload those bytes encode and the
    constructor accepts it, [fromString] returns that Legacy instance and
    its serialized bytes are the wire bytes. *)
Theorem wire_roundtrip
    (txData : string) (b : byte) (rest : Buffer)
    (payload : LegacyDatabasePayload) (common : Common.t)
    (tx : LegacyTransaction.t) :
  Data.from_string txData = Ok (b :: rest) ->
  0xc0 <= Byte.to_N b ->
  decode (b :: rest) = Some payload ->
  RLP.encode (RLP.Items (map RLP.Bytes payload)) = b :: rest ->
  List.length payload = 9%nat ->
  LegacyTransaction.new (inl payload) common = Ok tx ->
  TransactionFactory.fromString txData common = Ok (TransactionFactory.Legacy tx)
  /\ LegacyTransaction.serialized tx = Some (b :: rest).
Proof.
  intros Hdata Hb Hdecode Hencode Hlen Hnew. split.
  - unfold TransactionFactory.fromString. rewrite Hdata. cbn [bind].
    unfold Data.toBuffer. cbn [first_byte].
    rewrite typeOf_list_prefix by (change 0xc0%Z with (Z.of_N 0xc0); lia).
    cbn [TransactionFactory.js_is_undefined].
    rewrite Hdecode. cbn [external bind].
    exact (f_equal (fun m => tx0 <- m ;; Ok (TransactionFactory.Legacy tx0)) Hnew).
  - rewrite <- Hencode. exact (new_serialized payload common tx Hlen Hnew).
Qed.

End ReachProperties.

Lemma toVmTransaction_fields_witness :
  exists vm : LegacyTransaction.VmTransaction,
    @LegacyTransaction.toVmTransaction Fixture.externals Fixture.transfer = Ok vm
    /\ LegacyTransaction.vm_gasLimit vm = 21000
    /\ LegacyTransaction.getBaseFee vm tt = 21000.
Proof.
  eexists. split; [reflexivity|].
  destruct (@toVmTransaction_fields Fixture.externals Fixture.transfer _ eq_refl)
    as (_ & _ & Hgas & _ & _ & _ & Hfee & _).
  split; [exact Hgas | exact Hfee].
Defined.

Lemma signAndHash_raw_witness :
  exists (signed : LegacyTransaction.t) (raw : LegacyDatabaseTx),
    @LegacyTransaction.signAndHash Fixture.externals Fixture.privateKey Fixture.unsigned
    = (signed, Ok tt)
    /\ LegacyTransaction.raw signed = Some raw
    /\ List.length raw = 10%nat.
Proof.
  eexists.
  destruct (@signAndHash_raw Fixture.externals Fixture.privateKey
              Fixture.unsigned _ eq_refl)
    as (v' & r' & s' & raw & _ & _ & _ & Hraw & _ & Hlen & _).
  exists raw. split; [reflexivity|]. split; [exact Hraw | exact Hlen].
Defined.

Lemma sign_then_reload_witness :
  exists (signed : LegacyTransaction.t) (raw : LegacyDatabaseTx),
    @LegacyTransaction.signAndHash Fixture.externals Fixture.privateKey Fixture.unsigned
    = (signed, Ok tt)
    /\ LegacyTransaction.raw signed = Some raw
    /\ @TransactionFactory.fromDatabaseTx Fixture.externals raw Fixture.mainnet
       = Ok (TransactionFactory.Legacy (with_from (repeat x11 20) signed)).
Proof.
  do 2 eexists. split; [reflexivity|]. split; [reflexivity|].
  apply (@sign_then_reload Fixture.externals Fixture.privateKey Fixture.unsigned
           _ _ 37 (repeat x11 20)); reflexivity.
Defined.

Lemma reachable_consistent_witness :
  exists signed : LegacyTransaction.t,
    @LegacyTransaction.signAndHash Fixture.externals Fixture.privateKey Fixture.unsigned
    = (signed, Ok tt)
    /\ LegacyTransaction.type signed = 0
    /\ (@unsigned_state signed \/ @signed_state Fixture.externals signed).
Proof.
  eexists. split; [reflexivity|].
  apply (@reachable_consistent Fixture.externals
           (fst (@LegacyTransaction.signAndHash Fixture.externals
                   Fixture.privateKey Fixture.unsigned))).
  apply reach_sign.
  apply (@reach_new Fixture.externals (inr (Fixture.rpc None)) Fixture.mainnet).
  reflexivity.
Defined.

Lemma contract_creation_agreement_witness :
  exists (tx : LegacyTransaction.t) (vm : LegacyTransaction.VmTransaction),
    @LegacyTransaction.new Fixture.externals (inl Fixture.payload) Fixture.mainnet = Ok tx
    /\ @LegacyTransaction.toVmTransaction Fixture.externals tx = Ok vm
    /\ LegacyTransaction.vm_to vm = None.
Proof.
  eexists.
  destruct (@contract_creation_agreement Fixture.externals Fixture.payload
              Fixture.mainnet _ eq_refl)
    as (vm & Hvm & _ & Hto & _).
  exists vm. split; [reflexivity|]. split; [exact Hvm|].
  apply Hto. reflexivity.
Defined.

Lemma wire_roundtrip_witness :
  exists tx : LegacyTransaction.t,
    @TransactionFactory.fromString Fixture.externals Fixture.wire Fixture.mainnet
    = Ok (TransactionFactory.Legacy tx)
    /\ Data.from_string Fixture.wire
       = match LegacyTransaction.serialized tx with
         | Some bytes => Ok bytes
         | None => Err MalformedHexError
         end.
Proof.
  eexists.
  destruct (@wire_roundtrip Fixture.externals Fixture.wire
              xc9 [x80; x80; x80; x80; x80; x80; x1b; x01; x01]
              Fixture.payload Fixture.mainnet _
              eq_refl ltac:(discriminate) eq_refl eq_refl eq_refl eq_refl)
    as [Hwire Hser].
  split; [exact Hwire|].
  rewrite Hser. reflexivity.
Defined.

(** X16. [typeOf], both ways. Legacy is answered for an absent value, for 0
    and for every number from 0xC0 up, and for nothing else; AccessList for
    the number 1 only; and no variant exactly for [NaN] and for the other
    numbers below 0xC0, the negative ones among them. *)
Theorem typeOf_characterization (type : js_number) :
  (TransactionFactory.typeOf type = Some TransactionFactory.LegacyTransactionClass
   <-> type = undefined
       \/ exists n : Z, type = Num n /\ (n = 0 \/ 0xc0 <= n)%Z)
  /\ (TransactionFactory.typeOf type
        = Some TransactionFactory.EIP2930AccessListTransactionClass
      <-> type = Num 1)
  /\ (TransactionFactory.typeOf type = None
      <-> type = NaN
          \/ exists n : Z, type = Num n /\ (n < 0xc0 /\ n <> 0 /\ n <> 1)%Z).
Proof.
  destruct type as [| |n].
  - repeat split; try discriminate; try (now left).
    intros [E|(n & E & _)]; discriminate.
  - repeat split; try discriminate; try (now left).
    intros [E|(n & E & _)]; discriminate.
  - destruct (Z_le_gt_dec 0xc0 n) as [Hge|Hlt];
      [|destruct (Z.eq_dec n 0) as [->|H0];
        [|destruct (Z.eq_dec n 1) as [->|H1]]].
    + rewrite (typeOf_list_prefix n Hge).
      repeat split; try discriminate.
      * intros _. right. exists n. split; [reflexivity | now right].
      * intros [= ->]. lia.
      * intros [E|(m & [= <-] & Hm & _)]; [discriminate | lia].
    + repeat split; try discriminate.
      * intros _. right. exists 0%Z. split; [reflexivity | now left].
      * intros [E|(m & [= <-] & _ & Hm & _)]; [discriminate | lia].
    + repeat split; try discriminate.
      * intros [E|(m & [= <-] & [Hm|Hm])]; [discriminate | lia | lia].
      * intros [E|(m & [= <-] & _ & _ & Hm)]; [discriminate | lia].
    + rewrite (typeOf_unknown n ltac:(lia) H0 H1).
      repeat split; try discriminate.
      * intros [E|(m & [= <-] & [Hm|Hm])]; [discriminate | lia | lia].
      * intros [= ->]. lia.
      * intros _. right. exists n. repeat split; [lia | exact H0 | exact H1].
Qed.
